(** * Bulk fetch of historical candles: a shallow embedding

    This development embeds in Rocq the paginated, checkpointed fetch loop of
    [Crypto_Price_Data/BTC_USD_Price_5min/5-min-btc-usd.py]
    (class [CoinbaseDataFetcher]) and the 429-aware loop of
    [Leverage_Data/leverage-data.py] ([get_hourly_klines]), and proves or
    refutes the properties the specification states about them.

    Conventions.
    - A [datetime] is the number of seconds since the Unix epoch, in [Z]
      (the scripts only build datetimes with whole seconds and the process
      time zone is taken to be UTC, so [datetime.timestamp()] is the
      identity).  [NaT] is [None].
    - The float columns of a candle are carried as rationals; the code never
      computes with them inside the fetch loop.
    - [print] calls are not modelled.
    - The remote API and the local disk are the environment: a source is a
      function from the number of requests already issued and the request to
      a response, and the disk is a map from paths to files.  Every effect
      of the code goes through [emit], which appends to a log. *)

From Stdlib Require Import ZArith List Bool Lia QArith.
From Stdlib Require Import Sorted Permutation.
Import ListNotations.
Open Scope Z_scope.

(** ** Calendar: what [datetime.strptime(s, "%Y-%m-%d")] and [.dt.year] compute *)

Module Calendar.

(** Days since 1970-01-01 of a proleptic Gregorian date. *)
Definition days_from_civil (y m d : Z) : Z :=
  let y' := if m <=? 2 then y - 1 else y in
  let era := y' / 400 in
  let yoe := y' - era * 400 in
  let mp := if 2 <? m then m - 3 else m + 9 in
  let doy := (153 * mp + 2) / 5 + d - 1 in
  let doe := yoe * 365 + yoe / 4 - yoe / 100 + doy in
  era * 146097 + doe - 719468.

(** [datetime.strptime("y-m-d", "%Y-%m-%d")], as seconds since the epoch. *)
Definition strptime (y m d : Z) : Z := 86400 * days_from_civil y m d.

(** [.dt.year] of a timestamp in seconds. *)
Definition year_of (t : Z) : Z :=
  let z := t / 86400 + 719468 in
  let era := z / 146097 in
  let doe := z - era * 146097 in
  let yoe := (doe - doe / 1460 + doe / 36524 - doe / 146096) / 365 in
  let doy := doe - (365 * yoe + yoe / 4 - yoe / 100) in
  let mp := (5 * doy + 2) / 153 in
  let m := if mp <? 10 then mp + 3 else mp - 9 in
  yoe + era * 400 + (if m <=? 2 then 1 else 0).

End Calendar.

(** ** Data frames of candles and the pandas operations the loop uses *)

Record candle : Type := mkCandle {
  timestamp : Z;
  low : Q;
  high : Q;
  open : Q;
  close : Q;
  volume : Q
}.

Definition DataFrame : Type := list candle.

Module Frame.

Section Keyed.

(** Rows of any shape, with the column the code de-duplicates and sorts
    on. *)
Context {A : Type} (key : A -> Z).

(** [df.drop_duplicates(subset=[key])]: the first row of every key is
    kept, in the original order. *)
Fixpoint drop_duplicates (df : list A) : list A :=
  match df with
  | [] => []
  | c :: rest =>
      c :: filter (fun d => negb (key d =? key c)) (drop_duplicates rest)
  end.

Fixpoint insert_by_key (c : A) (df : list A) : list A :=
  match df with
  | [] => [c]
  | d :: rest =>
      if key c <=? key d then c :: d :: rest
      else d :: insert_by_key c rest
  end.

(** [df.sort_values(key)], ascending.  Where the code calls it after
    [drop_duplicates] the keys are pairwise distinct and every sorting
    algorithm returns the same frame (see [sorted_frame_unique]). *)
Definition sort_values (df : list A) : list A :=
  fold_right insert_by_key [] df.

(** [df[key].max()]; [NaT] on an empty frame. *)
Definition max_key (df : list A) : option Z :=
  match df with
  | [] => None
  | c :: rest => Some (fold_left Z.max (map key rest) (key c))
  end.

(** Ascending by key, without equal keys. *)
Definition ascending (df : list A) : Prop :=
  StronglySorted Z.lt (map key df).

End Keyed.

(** [pd.concat(frames, ignore_index=True)]. *)
Definition concat {A : Type} (frames : list (list A)) : list A :=
  List.concat frames.

(** [series.unique()]: distinct values in order of first appearance. *)
Definition unique (l : list Z) : list Z := drop_duplicates (fun x => x) l.

Definition empty {A : Type} (df : list A) : bool :=
  match df with [] => true | _ => false end.

End Frame.

(** ** The environment: disk, requests, sleeps *)

Inductive path : Type :=
| main_checkpoint                 (* "btc_usd_checkpoint_complete.csv" *)
| fail_file                       (* "failed_requests.txt" *)
| year_file (year : Z).           (* f"btc_usd_5min_{year}_backup.csv" *)

Definition path_eqb (p q : path) : bool :=
  match p, q with
  | main_checkpoint, main_checkpoint => true
  | fail_file, fail_file => true
  | year_file y, year_file z => y =? z
  | _, _ => false
  end.

(** A file is a list of lines.  A CSV written by [to_csv(index=False)] is a
    header followed by one row per candle. *)
Inductive line : Type :=
| CsvHeader
| CsvRow (c : candle)
| WindowLine (s e : Z)            (* f"{start},{end}\n" *)
| Garbled.

Definition file : Type := list line.
Definition filesystem : Type := path -> option file.

Inductive granularity_name : Type :=
| ONE_MINUTE | FIVE_MINUTE | FIFTEEN_MINUTE | ONE_HOUR | SIX_HOUR | ONE_DAY.

(** The query parameters of one GET on [.../candles]. *)
Record request : Type := mkRequest {
  req_granularity : granularity_name;
  req_limit : Z;
  req_start : Z;
  req_end : Z
}.

Inductive body : Type :=
| NoCandlesKey                    (* JSON without a 'candles' member *)
| Candles (cs : list candle)
| BadPayload.                     (* not JSON, or a field that does not convert *)

Inductive response : Type :=
| TransportError                  (* timeout, connection error *)
| Http (status : Z) (b : body).

(** A source answers a request knowing how many requests came before. *)
Definition source : Type := nat -> request -> response.

Inductive event : Type :=
| Request (r : request)
| Sleep (ms : Z)
| OpenW (p : path)                (* open(p, 'w'): create or truncate *)
| Append (p : path) (ls : list line)
| Remove (p : path).

Definition fs_set (d : filesystem) (p : path) (f : option file) : filesystem :=
  fun q => if path_eqb q p then f else d q.

Definition apply_event (e : event) (d : filesystem) : filesystem :=
  match e with
  | Request _ | Sleep _ => d
  | OpenW p => fs_set d p (Some [])
  | Append p ls =>
      fs_set d p (Some (match d p with Some old => old ++ ls | None => ls end))
  | Remove p => fs_set d p None
  end.

(** The file an event writes or removes, if any. *)
Definition target (e : event) : option path :=
  match e with
  | Request _ | Sleep _ => None
  | OpenW p | Append p _ | Remove p => Some p
  end.

(** The disk after the events of [es] (oldest first) happened on [d]. *)
Definition replay (es : list event) (d : filesystem) : filesystem :=
  fold_left (fun d e => apply_event e d) es d.

Record world : Type := mkWorld {
  disk : filesystem;
  issued : nat;                   (* requests sent so far *)
  log : list event                (* newest first *)
}.

Definition history (w : world) : list event := rev (log w).

Definition is_request (e : event) : bool :=
  match e with Request _ => true | _ => false end.

Definition requests_of (es : list event) : list request :=
  flat_map (fun e => match e with Request r => [r] | _ => [] end) es.

Definition sleeps_of (es : list event) : list Z :=
  flat_map (fun e => match e with Sleep ms => [ms] | _ => [] end) es.

Definition boot (d : filesystem) : world :=
  {| disk := d; issued := 0%nat; log := [] |}.

Definition no_files : filesystem := fun _ => None.

(** The world after the events [es] (newest first) happened in [w]. *)
Definition step_of (es : list event) (w : world) : world :=
  {| disk := replay (rev es) (disk w);
     issued := length (requests_of es) + issued w;
     log := es ++ log w |}.

(** A computation is logged when all it does to the world is a sequence of
    events. *)
Definition logged {A : Type} (m : world -> A * world) : Prop :=
  forall w, exists es, snd (m w) = step_of es w.

(** Requests and sleeps do not touch the disk. *)
Definition quiet (es : list event) : Prop :=
  Forall (fun e => match e with Request _ | Sleep _ => True | _ => False end) es.

(** ** A state and exception monad with fuel *)

Inductive exn : Type :=
| ZeroDivisionError
| EmptyDataError                  (* pd.read_csv on an empty file *)
| ParserError                     (* pd.read_csv on a malformed file *)
| KeyError                        (* existing_df['timestamp'] missing *)
| FileNotFoundError.

Inductive result (A : Type) : Type :=
| Ok (a : A)
| Raise (e : exn)
| OutOfFuel.
Arguments Ok {A} a.
Arguments Raise {A} e.
Arguments OutOfFuel {A}.

Definition M (A : Type) : Type := world -> result A * world.

Definition ret {A} (a : A) : M A := fun w => (Ok a, w).
Definition raise {A} (e : exn) : M A := fun w => (Raise e, w).
Definition out_of_fuel {A} : M A := fun w => (OutOfFuel, w).

Definition bind {A B} (m : M A) (k : A -> M B) : M B :=
  fun w =>
    match m w with
    | (Ok a, w') => k a w'
    | (Raise e, w') => (Raise e, w')
    | (OutOfFuel, w') => (OutOfFuel, w')
    end.

Notation "x <- m ;; k" := (bind m (fun x => k))
  (at level 61, m at next level, right associativity).
Notation "m ;;; k" := (bind m (fun _ => k))
  (at level 61, right associativity).

(** The only way the code changes the world. *)
Definition emit (e : event) : M unit :=
  fun w =>
    (Ok tt,
     {| disk := apply_event e (disk w);
        issued := if is_request e then S (issued w) else issued w;
        log := e :: log w |}).

Definition when (b : bool) (m : M unit) : M unit := if b then m else ret tt.

Fixpoint for_each {A} (l : list A) (f : A -> M unit) : M unit :=
  match l with
  | [] => ret tt
  | x :: rest => f x ;;; for_each rest f
  end.

(** [time.sleep(s)], in milliseconds. *)
Definition sleep (ms : Z) : M unit := emit (Sleep ms).

(** [os.path.exists(p)]. *)
Definition path_exists (p : path) : M bool :=
  fun w => (Ok (match disk w p with Some _ => true | None => false end), w).

(** [os.remove(p)]. *)
Definition os_remove (p : path) : M unit := emit (Remove p).

(** [df.to_csv(p, index=False)]: the file is opened for writing, which
    truncates it, and the header and rows are written after that. *)
Definition to_csv (p : path) (df : DataFrame) : M unit :=
  emit (OpenW p) ;;; emit (Append p (CsvHeader :: map CsvRow df)).

Fixpoint rows_of (ls : list line) : option DataFrame :=
  match ls with
  | [] => Some []
  | CsvRow c :: rest => option_map (cons c) (rows_of rest)
  | _ :: _ => None
  end.

(** [pd.read_csv(p)] followed by [df['timestamp'] = pd.to_datetime(...)]. *)
Definition parse_csv (f : file) : result DataFrame :=
  match f with
  | [] => Raise EmptyDataError
  | CsvHeader :: rest =>
      match rows_of rest with
      | Some df => Ok df
      | None => Raise ParserError
      end
  | _ :: _ => Raise KeyError
  end.

Definition read_csv (p : path) : M DataFrame :=
  fun w =>
    match disk w p with
    | Some f => (parse_csv f, w)
    | None => (Raise FileNotFoundError, w)
    end.

(** [requests.get(endpoint, params=params, headers=headers)]. *)
Definition http_get (src : source) (r : request) : M response :=
  fun w => bind (emit (Request r)) (fun _ => ret (src (issued w) r)) w.

(** ** [CoinbaseDataFetcher] *)

Module Coinbase.

(** [self.granularity_map]. *)
Definition granularity_map (granularity : Z) : option granularity_name :=
  if granularity =? 60 then Some ONE_MINUTE
  else if granularity =? 300 then Some FIVE_MINUTE
  else if granularity =? 900 then Some FIFTEEN_MINUTE
  else if granularity =? 3600 then Some ONE_HOUR
  else if granularity =? 21600 then Some SIX_HOUR
  else if granularity =? 86400 then Some ONE_DAY
  else None.

(** [response.raise_for_status()] raises on every 4xx and 5xx status. *)
Definition raise_for_status (status : Z) : bool :=
  (400 <=? status) && (status <? 600).

(** What [fetch_candles] makes of a response: every exception is caught
    and turned into [None], as are a missing or empty candle list. *)
Definition parse_response (r : response) : option DataFrame :=
  match r with
  | TransportError => None
  | Http status b =>
      if raise_for_status status then None
      else match b with
           | NoCandlesKey => None
           | BadPayload => None
           | Candles [] => None
           | Candles cs => Some (Frame.sort_values timestamp cs)
           end
  end.

Definition max_retries : Z := 3.

Definition window : Type := (Z * Z)%type.

(** The variables the main loop of [fetch_complete_historical_data]
    updates. *)
Record loop_state : Type := mkLoop {
  all_data : list DataFrame;
  current_start : Z;
  request_count : Z;
  failed_requests : list window
}.

(** The [params] dictionary of [fetch_candles], with the end moved back
    when the range holds more than 300 candles. *)
Definition candles_params (granularity_str : granularity_name)
           (start_ts end_ts granularity limit : Z) : request :=
  let time_diff := end_ts - start_ts in
  {| req_granularity := granularity_str;
     req_limit := Z.min limit 350;
     req_start := start_ts;
     req_end := if 300 * granularity <? time_diff
                then start_ts + 300 * granularity else end_ts |}.

(** [ls] with more failed windows. *)
Definition with_failed (ls : loop_state) (fl : list window) : loop_state :=
  {| all_data := all_data ls;
     current_start := current_start ls;
     request_count := request_count ls;
     failed_requests := failed_requests ls ++ fl |}.

(** The de-duplicated, sorted accumulator. *)
Definition combine (frames : list DataFrame) : DataFrame :=
  Frame.sort_values timestamp
    (Frame.drop_duplicates timestamp (Frame.concat frames)).

Definition years_of (df : DataFrame) : list Z :=
  Frame.unique (map (fun c => Calendar.year_of (timestamp c)) df).

Definition rows_of_year (year : Z) (df : DataFrame) : DataFrame :=
  filter (fun c => Calendar.year_of (timestamp c) =? year) df.

(** The events of the yearly backups of [temp_df], newest first. *)
Definition backup_events (temp_df : DataFrame) : list event :=
  flat_map (fun year =>
              [Append (year_file year)
                 (CsvHeader :: map CsvRow (rows_of_year year temp_df));
               OpenW (year_file year)])
           (rev (years_of temp_df)).

(** The events of one checkpoint save, newest first: the main file, then
    one backup per year. *)
Definition checkpoint_events (frames : list DataFrame) : list event :=
  let temp_df := combine frames in
  backup_events temp_df
  ++ [Append main_checkpoint (CsvHeader :: map CsvRow temp_df);
      OpenW main_checkpoint].

(** The events of [finalize], oldest first: the report of the failed
    windows, if any, then the removal of the checkpoint, if there is one. *)
Definition finalize_history (ls : loop_state) (w : world) : list event :=
  match failed_requests ls with
  | [] => []
  | _ :: _ =>
      OpenW fail_file ::
      map (fun fw => Append fail_file [WindowLine (fst fw) (snd fw)])
          (failed_requests ls)
  end ++
  match disk w main_checkpoint with
  | Some _ => [Remove main_checkpoint]
  | None => []
  end.

(** The events of [S k] attempts on one window, newest first: the requests,
    two seconds apart. *)
Definition attempts_events (req : request) (k : nat) : list event :=
  Request req :: List.concat (repeat [Sleep 2000; Request req] k).

Section Fetcher.

Variable src : source.

(** [fetch_candles(start_time, end_time, granularity, limit)].  Both
    times are datetimes in every call the code makes, hence truthy.
    [num_candles > 300] compares [time_diff / granularity] with 300; the
    granularity is one of the positive keys of the map at that point. *)
Definition fetch_candles (start_time end_time granularity limit : Z)
  : M (option DataFrame) :=
  match granularity_map granularity with
  | None => ret None
  | Some granularity_str =>
      r <- http_get src
             (candles_params granularity_str start_time end_time granularity limit) ;;
      ret (parse_response r)
  end.

Section Run.

Variables start_date end_date granularity : Z.

Definition total_seconds : Z := end_date - start_date.
Definition batch_seconds : Z := 300 * granularity.

(** The inner [while retry_count < max_retries and df is None].
    [budget] only makes the recursion structural: the loop body runs at
    most [max_retries] times. *)
Fixpoint retry_loop (budget : nat) (current_end : Z) (retry_count : Z)
         (df : option DataFrame) (ls : loop_state)
  : M (option DataFrame * loop_state) :=
  if (retry_count <? max_retries) && (match df with None => true | Some _ => false end)
  then
    match budget with
    | O => out_of_fuel
    | S budget' =>
        df' <- fetch_candles (current_start ls) current_end granularity 300 ;;
        match df' with
        | None =>
            let retry_count' := retry_count + 1 in
            if retry_count' <? max_retries
            then sleep 2000 ;;;
                 retry_loop budget' current_end retry_count' None ls
            else retry_loop budget' current_end retry_count' None
                   (with_failed ls [(current_start ls, current_end)])
        | Some _ => retry_loop budget' current_end retry_count df' ls
        end
    end
  else ret (df, ls).

(** The block under [if request_count % 100 == 0]. *)
Definition save_checkpoint (frames : list DataFrame) : M unit :=
  let temp_df := combine frames in
  to_csv main_checkpoint temp_df ;;;
  for_each (years_of temp_df)
    (fun year => to_csv (year_file year) (rows_of_year year temp_df)).

(** One iteration of [while current_start < end_date]. *)
Definition loop_body (ls : loop_state) : M loop_state :=
  let request_count' := request_count ls + 1 in
  let current_end := Z.min (current_start ls + batch_seconds) end_date in
  (* progress = (current_start - start_date).total_seconds() / total_seconds * 100 *)
  (if total_seconds =? 0 then raise ZeroDivisionError else ret tt) ;;;
  fetched <- retry_loop (Z.to_nat max_retries) current_end 0 None
               {| all_data := all_data ls;
                  current_start := current_start ls;
                  request_count := request_count';
                  failed_requests := failed_requests ls |} ;;
  let '(df, ls1) := fetched in
  all_data' <-
    match df with
    | Some d =>
        if negb (Frame.empty d) then
          let all_data' := all_data ls1 ++ [d] in
          when (request_count' mod 100 =? 0) (save_checkpoint all_data') ;;;
          ret all_data'
        else ret (all_data ls1)
    | None => ret (all_data ls1)
    end ;;
  sleep 500 ;;;
  ret {| all_data := all_data';
         current_start := current_end;
         request_count := request_count';
         failed_requests := failed_requests ls1 |}.

(** The end of the window that starts at [cs]. *)
Definition window_end (cs : Z) : Z := Z.min (cs + batch_seconds) end_date.

(** The number of windows from [cs] to the end of the range, for a positive
    granularity: the iterations the main loop needs. *)
Definition windows_needed (cs : Z) : nat :=
  Z.to_nat ((end_date - cs + batch_seconds - 1) / batch_seconds).

(** What the retry loop of the window at [ls] can end with: the frame [df]
    and the events [es], newest first. *)
Definition attempted (ls : loop_state) (w : world) (df : option DataFrame)
           (es : list event) : Prop :=
  quiet es /\
  (length (requests_of es) <= 3)%nat /\
  (forall d, df = Some d ->
     d <> [] /\
     exists i name,
       granularity_map granularity = Some name /\
       parse_response
         (src i (candles_params name (current_start ls)
                   (window_end (current_start ls)) granularity 300)) = Some d) /\
  (df = None ->
   forall name,
     granularity_map granularity = Some name ->
     parse_response
       (src (issued w) (candles_params name (current_start ls)
                          (window_end (current_start ls)) granularity 300)) = None).

(** The loop variables after an iteration whose retries ended with
    [df]. *)
Definition advance (ls : loop_state) (df : option DataFrame) : loop_state :=
  {| all_data :=
       all_data ls ++ match df with Some d => [d] | None => [] end;
     current_start := window_end (current_start ls);
     request_count := request_count ls + 1;
     failed_requests :=
       failed_requests ls ++
       match df with
       | Some _ => []
       | None => [(current_start ls, window_end (current_start ls))]
       end |}.

(** The disk events of an iteration whose retries ended with [df]. *)
Definition saved_events (ls : loop_state) (df : option DataFrame) : list event :=
  match df with
  | Some d =>
      if (request_count ls + 1) mod 100 =? 0
      then checkpoint_events (all_data ls ++ [d]) else []
  | None => []
  end.

Fixpoint main_loop (fuel : nat) (ls : loop_state) : M loop_state :=
  if current_start ls <? end_date then
    match fuel with
    | O => out_of_fuel
    | S fuel' => ls' <- loop_body ls ;; main_loop fuel' ls'
    end
  else ret ls.

(** The [if os.path.exists(main_checkpoint)] block before the loop.
    The result is the accumulator and the resume point; the resume
    point of an empty checkpoint is [NaT]. *)
Definition load_checkpoint : M (list DataFrame * option Z) :=
  found <- path_exists main_checkpoint ;;
  if found then
    existing_df <- read_csv main_checkpoint ;;
    let last_timestamp := Frame.max_key timestamp existing_df in
    ret ([existing_df], option_map (fun t => t + granularity) last_timestamp)
  else ret ([], Some start_date).

(** Everything after the loop. *)
Definition finalize (ls : loop_state) : M (option DataFrame) :=
  match all_data ls with
  | [] => ret None
  | _ :: _ =>
      let combined_df := combine (all_data ls) in
      when (match failed_requests ls with [] => false | _ => true end)
        (emit (OpenW fail_file) ;;;
         for_each (failed_requests ls)
           (fun w => emit (Append fail_file [WindowLine (fst w) (snd w)]))) ;;;
      found <- path_exists main_checkpoint ;;
      when found (os_remove main_checkpoint) ;;;
      ret (Some combined_df)
  end.

(** The loop with the variables it starts from; [NaT < end_date] is
    false, so a [NaT] resume point skips the loop. *)
Definition run_loop (fuel : nat) (frames : list DataFrame) (resume : option Z)
  : M loop_state :=
  let ls0 := {| all_data := frames;
                current_start := match resume with Some t => t | None => 0 end;
                request_count := 0;
                failed_requests := [] |} in
  match resume with
  | Some _ => main_loop fuel ls0
  | None => ret ls0
  end.

(** [fetch_complete_historical_data(start_date, end_date, granularity)]
    up to the end of the loop. *)
Definition fetch_loop (fuel : nat) : M loop_state :=
  (* total_candles = total_seconds / granularity *)
  (if granularity =? 0 then raise ZeroDivisionError else ret tt) ;;;
  loaded <- load_checkpoint ;;
  run_loop fuel (fst loaded) (snd loaded).

Definition fetch_complete_historical_data (fuel : nat) : M (option DataFrame) :=
  ls <- fetch_loop fuel ;;
  finalize ls.

End Run.

End Fetcher.

End Coinbase.

(** ** [BinanceHourlyHistoricalData.get_hourly_klines] *)

Module Binance.

(** One parsed kline.  Times are in milliseconds, as the API gives them. *)
Record kline : Type := mkKline {
  k_timestamp : Z;
  k_open : Q;
  k_high : Q;
  k_low : Q;
  k_close : Q;
  k_volume : Q;
  k_quote_volume : Q;
  k_trades : Z;
  k_taker_buy_base : Q;
  k_taker_buy_quote : Q
}.

(** The parameters that vary: ['startTime'] and ['limit']. *)
Record kline_request : Type := mkKlineRequest {
  startTime : Z;
  limit : Z
}.

(** [requests.get] either raises or returns a status with a body; the
    body may fail to decode ([None]) and a row may fail to convert
    ([None] in the list). *)
Inductive kline_response : Type :=
| Failed
| Status (code : Z) (json : option (list (option kline))).

Definition kline_source : Type := nat -> kline_request -> kline_response.

Inductive kevent : Type :=
| Get (r : kline_request)
| Wait (ms : Z).

(** The local variables of the loop, the number of requests sent and the
    effects so far (newest first).  [current_start] is a datetime kept in
    milliseconds. *)
Record kstate : Type := mkKstate {
  all_klines : list kline;
  current_start : Z;
  sent : nat;
  trace : list kevent
}.

Inductive flow : Type :=
| Next (s : kstate)               (* falls through or [continue] *)
| Break (s : kstate).

(** The [for kline in data] loop: rows are appended one by one until one
    raises.  Returns the rows appended and whether all converted. *)
Fixpoint parse_rows (data : list (option kline)) : list kline * bool :=
  match data with
  | [] => ([], true)
  | Some k :: rest => let '(rows, ok) := parse_rows rest in (k :: rows, ok)
  | None :: _ => ([], false)
  end.

Definition one_hour : Z := 3600000.

(** The events of [n] rate-limited requests, newest first: each is followed
    by a minute of sleep. *)
Definition rate_limit_trace (r : kline_request) (n : nat) : list kevent :=
  List.concat (repeat [Wait 60000; Get r] n).

Section Klines.

Variable src : kline_source.
Variable end_date : Z.

(** One iteration of [while current_start < end_date]. *)
Definition klines_body (s : kstate) : flow :=
  let r := {| startTime := current_start s; limit := 1000 |} in
  let s1 := {| all_klines := all_klines s;
               current_start := current_start s;
               sent := S (sent s);
               trace := Get r :: trace s |} in
  match src (sent s) r with
  | Failed => Break s1
  | Status code json =>
      if code =? 200 then
        match json with
        | None => Break s1
        | Some [] => Break s1
        | Some data =>
            let '(rows, ok) := parse_rows data in
            if ok then
              let last_time := last (map k_timestamp rows) 0 in
              Next {| all_klines := all_klines s ++ rows;
                      current_start := last_time + one_hour;
                      sent := sent s1;
                      trace := Wait 500 :: trace s1 |}
            else
              Break {| all_klines := all_klines s ++ rows;
                       current_start := current_start s;
                       sent := sent s1;
                       trace := trace s1 |}
        end
      else if code =? 429 then
        Next {| all_klines := all_klines s;
                current_start := current_start s;
                sent := sent s1;
                trace := Wait 60000 :: trace s1 |}
      else Break s1
  end.

(** [None] when the fuel runs out. *)
Fixpoint klines_loop (fuel : nat) (s : kstate) : option kstate :=
  if current_start s <? end_date then
    match fuel with
    | O => None
    | S fuel' =>
        match klines_body s with
        | Next s' => klines_loop fuel' s'
        | Break s' => Some s'
        end
    end
  else Some s.

Definition get_hourly_klines (fuel : nat) (start_date : Z)
  : option (option (list kline) * kstate) :=
  match klines_loop fuel {| all_klines := []; current_start := start_date;
                            sent := 0%nat; trace := [] |} with
  | None => None
  | Some s =>
      Some (match all_klines s with
            | [] => None
            | _ :: _ =>
                Some (Frame.sort_values k_timestamp
                        (Frame.drop_duplicates k_timestamp (all_klines s)))
            end, s)
  end.

End Klines.

End Binance.

(** ** Sources and disks: the environments of the statements and examples *)

Module Scenario.

Definition flat (t : Z) : candle :=
  {| timestamp := t; low := 0; high := 0; open := 0; close := 0; volume := 0 |}.

Definition in_window (s e : Z) (c : candle) : bool :=
  (s <=? timestamp c) && (timestamp c <? e).

(** A source that serves a fixed series: every request is answered with
    the candles of the half-open window asked for. *)
Definition series_source (D : DataFrame) : source :=
  fun _ r => Http 200 (Candles (filter (in_window (req_start r) (req_end r)) D)).

(** The first [n] requests are answered by [bad], the later ones by
    [good]. *)
Definition failing_first (n : nat) (bad : response) (good : source) : source :=
  fun i r => if (i <? n)%nat then bad else good i r.

(** [n] candles spaced [step] seconds apart, from [t0]. *)
Definition grid (t0 step : Z) (n : nat) : DataFrame :=
  map (fun k => flat (t0 + step * Z.of_nat k)) (seq 0 n).

(** Daily candles from 2019-12-01, five hundred of them. *)
Definition daily : DataFrame := grid (Calendar.strptime 2019 12 1) 86400 500.

Definition csv (df : DataFrame) : file := CsvHeader :: map CsvRow df.

Definition with_checkpoint (f : file) : filesystem :=
  fs_set no_files main_checkpoint (Some f).

(** The first [n] requests are answered by [good], the later ones fail. *)
Definition down_after (n : nat) (good : source) : source :=
  fun i r => if (i <? n)%nat then good i r else TransportError.

(** A source that answers with five days more than asked, on both sides. *)
Definition overlapping_source (D : DataFrame) : source :=
  fun _ r =>
    Http 200 (Candles (filter (in_window (req_start r - 432000) (req_end r + 432000)) D)).

Definition jan_2020 : Z := Calendar.strptime 2020 1 1.
Definition feb_2020 : Z := Calendar.strptime 2020 2 1.
Definition jan_2021 : Z := Calendar.strptime 2021 1 1.

(** The frame a run returned, or the empty frame. *)
Definition returned (r : result (option DataFrame) * world) : DataFrame :=
  match fst r with
  | Ok (Some df) => df
  | _ => []
  end.

(** The loop variables before the first iteration of a run without a
    checkpoint. *)
Definition fresh (start_date : Z) : Coinbase.loop_state :=
  {| Coinbase.all_data := [];
     Coinbase.current_start := start_date;
     Coinbase.request_count := 0;
     Coinbase.failed_requests := [] |}.

(** The daily candles of January 2020. *)
Definition january : DataFrame := grid jan_2020 86400 31.

(** The request for the daily candles of January 2020. *)
Definition january_request : request :=
  {| req_granularity := ONE_DAY; req_limit := 300;
     req_start := jan_2020; req_end := feb_2020 |}.

(** A kline source that answers 429 to its first [n] requests and one
    kline, at the time asked for, to the later ones. *)
Definition throttled (n : nat) : Binance.kline_source :=
  fun i r =>
    if (i <? n)%nat then Binance.Status 429 None
    else Binance.Status 200
           (Some [Some {| Binance.k_timestamp := Binance.startTime r;
                          Binance.k_open := 0; Binance.k_high := 0;
                          Binance.k_low := 0; Binance.k_close := 0;
                          Binance.k_volume := 0; Binance.k_quote_volume := 0;
                          Binance.k_trades := 0;
                          Binance.k_taker_buy_base := 0;
                          Binance.k_taker_buy_quote := 0 |}]).

(** The variables of [get_hourly_klines] before its first iteration. *)
Definition kfresh (start_date : Z) : Binance.kstate :=
  {| Binance.all_klines := []; Binance.current_start := start_date;
     Binance.sent := 0%nat; Binance.trace := [] |}.


(** The windows a run of the loop gave up on. *)
Definition failed_of (r : result Coinbase.loop_state * world) : list Coinbase.window :=
  match fst r with
  | Ok ls => Coinbase.failed_requests ls
  | _ => []
  end.

(** A source that answers every request with the same single candle. *)
Definition stuck_source : source :=
  fun _ _ => Http 200 (Candles [flat jan_2020]).

(** The disks a crash can leave: the initial disk after any prefix of the
    events of a run. *)
Definition crash_disk (d0 : filesystem) (w : world) (k : nat) : filesystem :=
  replay (firstn k (history w)) d0.

End Scenario.


(** ** Shapes of the event log of the bulk fetch *)

Module Trace.

(** An event that writes or removes a file. *)
Definition file_event (e : event) : Prop :=
  match e with
  | Request _ | Sleep _ => False
  | OpenW _ | Append _ _ | Remove _ => True
  end.

(** The events of the retry loop of the window at [cs], newest first: no
    request when [fetch_candles] rejects the granularity, else at most three
    requests for the window. *)
Definition retry_shape (end_date granularity cs : Z) (es : list event) : Prop :=
  match Coinbase.granularity_map granularity with
  | None => es = [Sleep 2000; Sleep 2000]
  | Some name =>
      exists k, (k <= 2)%nat /\
        es = Coinbase.attempts_events
               (Coinbase.candles_params name cs
                  (Coinbase.window_end end_date granularity cs) granularity 300) k
  end.

(** The time slept since the last request, in milliseconds, after the
    events [es] (oldest first), when [slept] was slept before them. *)
Fixpoint slept_after (slept : Z) (es : list event) : Z :=
  match es with
  | [] => slept
  | Request _ :: rest => slept_after 0 rest
  | Sleep ms :: rest => slept_after (slept + ms) rest
  | _ :: rest => slept_after slept rest
  end.

(** Every request of [es] (oldest first) comes after at least half a second
    of sleep since the request before it; [slept] is what was slept before
    [es]. *)
Fixpoint paced (slept : Z) (es : list event) : bool :=
  match es with
  | [] => true
  | Request _ :: rest => (500 <=? slept) && paced 0 rest
  | Sleep ms :: rest => paced (slept + ms) rest
  | _ :: rest => paced slept rest
  end.

(** A request for a window that is not empty, ends by [end_date] and holds
    at most 300 candles. *)
Definition within_limits (end_date granularity : Z) (r : request) : Prop :=
  req_limit r = 300
  /\ req_start r < req_end r <= end_date
  /\ req_end r - req_start r <= 300 * granularity.

(** A window of the partition of the range. *)
Definition is_window (start_date end_date granularity : Z) (fw : Coinbase.window) : Prop :=
  start_date <= fst fw < snd fw
  /\ snd fw <= end_date
  /\ snd fw - fst fw <= 300 * granularity.

(** The loop variables a run starts from when it found the checkpoint
    [df]; the start is of no use when the checkpoint is empty. *)
Definition resumed (granularity : Z) (df : DataFrame) : Coinbase.loop_state :=
  {| Coinbase.all_data := [df];
     Coinbase.current_start :=
       match Frame.max_key timestamp df with
       | Some t => t + granularity
       | None => 0
       end;
     Coinbase.request_count := 0;
     Coinbase.failed_requests := [] |}.

End Trace.


(** ** [CoinbaseDataFetcher.save_complete_dataset] *)

Module Dataset.

Inductive out_path : Type :=
| complete_file                   (* "btc_usd_5min_complete_20191101_20250802.csv" *)
| yearly_file (year : Z).         (* f"btc_usd_5min_{year}.csv" *)

(** [df['timestamp'].min()]; [NaT] on an empty frame. *)
Definition min_timestamp (df : DataFrame) : option Z :=
  match df with
  | [] => None
  | c :: rest => Some (fold_left Z.min (map timestamp rest) (timestamp c))
  end.

(** [sorted(df['timestamp'].dt.year.unique())]. *)
Definition sorted_years (df : DataFrame) : list Z :=
  Frame.sort_values (fun y => y) (Coinbase.years_of df).

(** The files of a frame with rows, in the order written: the complete file,
    then one file per year. *)
Definition dataset_files (rows : DataFrame) : list (out_path * DataFrame) :=
  (complete_file, rows)
  :: map (fun year => (yearly_file year, Coinbase.rows_of_year year rows))
         (sorted_years rows).

(** [save_complete_dataset(df)]: the calls of [to_csv] in order, and how the
    function ends.  After the files the summary is printed; its last line
    divides the number of rows by [expected_candles = time_range / 300],
    which is zero when the first and the last timestamp are equal. *)
Definition save_complete_dataset (df : option DataFrame)
  : list (out_path * DataFrame) * result unit :=
  match df with
  | None => ([], Ok tt)
  | Some [] => ([], Ok tt)
  | Some rows =>
      let time_range :=
        match Frame.max_key timestamp rows, min_timestamp rows with
        | Some hi, Some lo => hi - lo
        | _, _ => 0
        end in
      (dataset_files rows,
       if time_range =? 0 then Raise ZeroDivisionError else Ok tt)
  end.

(** The main block of the script: the bulk fetch, and the save when a frame
    was returned. *)
Definition main (src : source) (start_date end_date granularity : Z) (fuel : nat)
           (w : world)
  : option (list (out_path * DataFrame) * result unit) :=
  match fst (Coinbase.fetch_complete_historical_data
               src start_date end_date granularity fuel w) with
  | Ok (Some df) => Some (save_complete_dataset (Some df))
  | _ => None
  end.

End Dataset.

(** ** The chunked loops of [BinanceHourlyHistoricalData] *)

Module Futures.

(** ['startTime'], ['endTime'] and ['limit'] of a request for hourly
    statistics; times in milliseconds. *)
Record chunk_request : Type := mkChunkRequest {
  c_start : Z;
  c_end : Z;
  c_limit : Z
}.

(** One point of [get_hourly_open_interest]. *)
Record oi_row : Type := mkOiRow {
  oi_timestamp : Z;
  open_interest : Q;
  open_interest_usd : Q
}.

(** One point of [get_hourly_long_short_ratio]. *)
Record ls_row : Type := mkLsRow {
  ls_timestamp : Z;
  longShortRatio : Q;
  longAccount : Q;
  shortAccount : Q
}.

(** One point of [get_hourly_taker_volume]. *)
Record taker_row : Type := mkTakerRow {
  taker_timestamp : Z;
  buySellRatio : Q;
  buyVol : Q;
  sellVol : Q
}.

Inductive cevent : Type :=
| CGet (r : chunk_request)
| CWait (ms : Z).

Definition twenty_days : Z := 1728000000.

(** The requests of a trace. *)
Definition gets (es : list cevent) : list chunk_request :=
  flat_map (fun e => match e with CGet r => [r] | CWait _ => [] end) es.


(** The requests [rs] cut the range from [from] to [to] into consecutive
    chunks of at most twenty days, with a limit of 500. *)
Fixpoint tiles (from to : Z) (rs : list chunk_request) : Prop :=
  match rs with
  | [] => to <= from
  | r :: rest =>
      c_start r = from
      /\ from < c_end r <= to
      /\ c_end r - c_start r <= twenty_days
      /\ c_limit r = 500
      /\ tiles (c_end r) to rest
  end.

(** The number of chunks from [cur] to [end_date]. *)
Definition chunks_needed (end_date cur : Z) : nat :=
  Z.to_nat ((end_date - cur + twenty_days - 1) / twenty_days).

Section Rows.

(** The rows of one of the three functions. *)
Variable row : Type.

(** [requests.get] raises, or answers a status with a body that may fail to
    decode ([None]) and whose items may fail to convert ([None]). *)
Inductive chunk_response : Type :=
| CFailed
| CStatus (code : Z) (json : option (list (option row))).

Definition chunk_source : Type := nat -> chunk_request -> chunk_response.

Record cstate : Type := mkCstate {
  rows : list row;
  current_date : Z;
  c_sent : nat;
  c_trace : list cevent           (* newest first *)
}.

(** The [for item in data] loop inside [try]: the items are appended until
    one raises. *)
Fixpoint parse_items (data : list (option row)) : list row :=
  match data with
  | Some r :: rest => r :: parse_items rest
  | _ => []
  end.

Variable src : chunk_source.
Variable end_date : Z.

Definition chunk_of (s : cstate) : chunk_request :=
  {| c_start := current_date s;
     c_end := Z.min (current_date s + twenty_days) end_date;
     c_limit := 500 |}.

(** The end of an iteration that does not [continue]:
    [current_date = end_chunk; time.sleep(1)]. *)
Definition next_chunk (s : cstate) (new_rows : list row) : cstate :=
  {| rows := rows s ++ new_rows;
     current_date := c_end (chunk_of s);
     c_sent := S (c_sent s);
     c_trace := CWait 1000 :: CGet (chunk_of s) :: c_trace s |}.

(** One iteration of the loop of [get_hourly_long_short_ratio] and of
    [get_hourly_taker_volume]: only a status 200 is looked at. *)
Definition ls_body (s : cstate) : cstate :=
  match src (c_sent s) (chunk_of s) with
  | CStatus code (Some data) =>
      if code =? 200 then next_chunk s (parse_items data) else next_chunk s []
  | _ => next_chunk s []
  end.

Fixpoint ls_loop (fuel : nat) (s : cstate) : option cstate :=
  if current_date s <? end_date then
    match fuel with
    | O => None
    | S fuel' => ls_loop fuel' (ls_body s)
    end
  else Some s.

(** One iteration of the loop of [get_hourly_open_interest]: a status 429
    sleeps a minute and repeats the chunk. *)
Definition oi_body (s : cstate) : cstate :=
  match src (c_sent s) (chunk_of s) with
  | CFailed => next_chunk s []
  | CStatus code json =>
      if code =? 200 then
        next_chunk s (match json with Some data => parse_items data | None => [] end)
      else if code =? 429 then
        {| rows := rows s;
           current_date := current_date s;
           c_sent := S (c_sent s);
           c_trace := CWait 60000 :: CGet (chunk_of s) :: c_trace s |}
      else next_chunk s []
  end.

Fixpoint oi_loop (fuel : nat) (s : cstate) : option cstate :=
  if current_date s <? end_date then
    match fuel with
    | O => None
    | S fuel' => oi_loop fuel' (oi_body s)
    end
  else Some s.

Definition cfresh (start_date : Z) : cstate :=
  {| rows := []; current_date := start_date; c_sent := 0%nat; c_trace := [] |}.

(** What the three functions return after their loop. *)
Definition result_frame (key : row -> Z) (s : cstate) : option (list row) :=
  match rows s with
  | [] => None
  | _ :: _ => Some (Frame.sort_values key (Frame.drop_duplicates key (rows s)))
  end.

End Rows.

(** [self.start_date] and [self.end_date], in milliseconds; the naive
    datetimes of the class are read in UTC, so that twenty days are
    [twenty_days] milliseconds. *)
Definition start_date : Z := 1000 * Calendar.strptime 2020 1 1.
Definition end_date : Z := 1000 * Calendar.strptime 2025 8 2.

Definition get_hourly_open_interest (src : chunk_source oi_row) (fuel : nat)
  : option (option (list oi_row) * cstate oi_row) :=
  option_map (fun s => (result_frame oi_row oi_timestamp s, s))
             (oi_loop oi_row src end_date fuel (cfresh oi_row start_date)).

Definition get_hourly_long_short_ratio (src : chunk_source ls_row) (fuel : nat)
  : option (option (list ls_row) * cstate ls_row) :=
  option_map (fun s => (result_frame ls_row ls_timestamp s, s))
             (ls_loop ls_row src end_date fuel (cfresh ls_row start_date)).

Definition get_hourly_taker_volume (src : chunk_source taker_row) (fuel : nat)
  : option (option (list taker_row) * cstate taker_row) :=
  option_map (fun s => (result_frame taker_row taker_timestamp s, s))
             (ls_loop taker_row src end_date fuel (cfresh taker_row start_date)).

End Futures.

(** ** Sources of klines *)

Module Hourly.




(** Every answer is a page that converts and whose last kline is an hour or
    more older than the ['startTime'] asked for. *)
Definition stale (src : Binance.kline_source) : Prop :=
  forall i r,
    exists data rows,
      src i r = Binance.Status 200 (Some data)
      /\ Binance.parse_rows data = (rows, true)
      /\ rows <> []
      /\ last (map Binance.k_timestamp rows) 0 + Binance.one_hour <= Binance.startTime r.

(** A source that answers with the one kline of the hour before. *)
Definition lagging : Binance.kline_source :=
  fun _ r =>
    Binance.Status 200
      (Some [Some {| Binance.k_timestamp := Binance.startTime r - Binance.one_hour;
                     Binance.k_open := 0; Binance.k_high := 0;
                     Binance.k_low := 0; Binance.k_close := 0;
                     Binance.k_volume := 0; Binance.k_quote_volume := 0;
                     Binance.k_trades := 0;
                     Binance.k_taker_buy_base := 0;
                     Binance.k_taker_buy_quote := 0 |}]).

End Hourly.

(** * Facts *)

(** ** Frames *)

Section FrameFacts.

Context {A : Type} (key : A -> Z).

Lemma drop_duplicates_incl (df : list A) (x : A) :
  In x (Frame.drop_duplicates key df) -> In x df.
Proof.
  induction df as [|c rest IH]; simpl; [tauto|].
  intros [->|H]; [now left|].
  apply filter_In in H. right. now apply IH.
Qed.

Lemma drop_duplicates_covers (df : list A) (x : A) :
  In x df -> exists y, In y (Frame.drop_duplicates key df) /\ key y = key x.
Proof.
  induction df as [|c rest IH]; simpl; [tauto|].
  intros [->|H].
  - exists x. auto.
  - destruct (IH H) as (y & Hy & Hk).
    destruct (Z.eq_dec (key y) (key c)) as [E|N].
    + exists c. split; [now left | congruence].
    + exists y. split; [|exact Hk]. right.
      apply filter_In. split; [exact Hy|].
      apply negb_true_iff, Z.eqb_neq, N.
Qed.

Lemma NoDup_map_filter (f : A -> bool) (l : list A) :
  NoDup (map key l) -> NoDup (map key (filter f l)).
Proof.
  induction l as [|a l IH]; simpl; [auto|].
  intros H. inversion H as [|? ? Hn Hd]; subst.
  destruct (f a); simpl; [constructor|]; auto.
  intros Hin. apply Hn.
  apply in_map_iff in Hin as (y & <- & Hy).
  apply filter_In in Hy. apply in_map, Hy.
Qed.

Lemma drop_duplicates_NoDup (df : list A) :
  NoDup (map key (Frame.drop_duplicates key df)).
Proof.
  induction df as [|c rest IH]; simpl; constructor.
  - intros Hin. apply in_map_iff in Hin as (y & Hk & Hy).
    apply filter_In in Hy as [_ Hy].
    apply negb_true_iff, Z.eqb_neq in Hy. congruence.
  - now apply NoDup_map_filter.
Qed.

Lemma insert_by_key_perm (c : A) (df : list A) :
  Permutation (Frame.insert_by_key key c df) (c :: df).
Proof.
  induction df as [|d rest IH]; simpl; [reflexivity|].
  destruct (key c <=? key d); [reflexivity|].
  rewrite IH. apply perm_swap.
Qed.

Lemma sort_values_perm (df : list A) :
  Permutation (Frame.sort_values key df) df.
Proof.
  induction df as [|c rest IH]; simpl; [reflexivity|].
  rewrite insert_by_key_perm. now constructor.
Qed.

Lemma sort_values_In (df : list A) (x : A) :
  In x (Frame.sort_values key df) <-> In x df.
Proof.
  split; apply Permutation_in;
    [apply sort_values_perm | symmetry; apply sort_values_perm].
Qed.

Lemma insert_by_key_sorted (c : A) (df : list A) :
  StronglySorted Z.le (map key df) ->
  StronglySorted Z.le (map key (Frame.insert_by_key key c df)).
Proof.
  induction df as [|d rest IH]; simpl; intros H.
  - repeat constructor.
  - inversion H as [|? ? Hs Hall]; subst.
    destruct (key c <=? key d) eqn:E; simpl.
    + apply Z.leb_le in E. constructor; [exact H|].
      constructor; [exact E|].
      eapply Forall_impl; [|exact Hall]. intros; lia.
    + apply Z.leb_gt in E. constructor; [now apply IH|].
      apply Forall_forall. intros k Hk.
      apply in_map_iff in Hk as (y & <- & Hy).
      apply (Permutation_in _ (insert_by_key_perm c rest)) in Hy.
      destruct Hy as [->|Hy]; [lia|].
      rewrite Forall_forall in Hall. apply Hall, in_map, Hy.
Qed.

Lemma sort_values_sorted (df : list A) :
  StronglySorted Z.le (map key (Frame.sort_values key df)).
Proof.
  induction df as [|c rest IH]; simpl; [constructor|].
  now apply insert_by_key_sorted.
Qed.

Lemma sorted_NoDup_ascending (ks : list Z) :
  StronglySorted Z.le ks -> NoDup ks -> StronglySorted Z.lt ks.
Proof.
  induction 1 as [|k ks Hs IH Hall]; intros Hnd; constructor;
    inversion Hnd as [|? ? Hn Hd]; subst; [now apply IH|].
  rewrite Forall_forall in *. intros j Hj.
  specialize (Hall j Hj).
  assert (j <> k) by (intros ->; contradiction). lia.
Qed.

(** What the code returns: sorted after de-duplication. *)
Lemma sort_drop_duplicates_ascending (df : list A) :
  Frame.ascending key (Frame.sort_values key (Frame.drop_duplicates key df)).
Proof.
  apply sorted_NoDup_ascending; [apply sort_values_sorted|].
  eapply Permutation_NoDup; [|apply drop_duplicates_NoDup].
  apply Permutation_map. symmetry. apply sort_values_perm.
Qed.

(** An ascending frame is determined by its rows: whatever algorithm
    sorts a frame without equal keys, the result is the same. *)
Lemma sorted_frame_unique (l1 l2 : list A) :
  Frame.ascending key l1 -> Frame.ascending key l2 ->
  (forall x, In x l1 <-> In x l2) -> l1 = l2.
Proof.
  unfold Frame.ascending. revert l2.
  induction l1 as [|x l1 IH]; intros [|y l2] H1 H2 Hin; simpl in *.
  - reflexivity.
  - exfalso. apply (Hin y). now left.
  - exfalso. apply (Hin x). now left.
  - inversion H1 as [|? ? S1 F1]; inversion H2 as [|? ? S2 F2]; subst.
    rewrite Forall_forall in F1, F2.
    assert (Hxy : x = y).
    { destruct (proj1 (Hin x) (or_introl eq_refl)) as [E|Hx]; [now symmetry|].
      destruct (proj2 (Hin y) (or_introl eq_refl)) as [E|Hy]; [exact E|].
      specialize (F2 _ (in_map key _ _ Hx)).
      specialize (F1 _ (in_map key _ _ Hy)). lia. }
    subst y. f_equal. apply IH; auto.
    intros z. split; intros Hz.
    + destruct (proj1 (Hin z) (or_intror Hz)) as [E|Hz']; [|exact Hz'].
      subst z. specialize (F1 _ (in_map key _ _ Hz)). lia.
    + destruct (proj2 (Hin z) (or_intror Hz)) as [E|Hz']; [|exact Hz'].
      subst z. specialize (F2 _ (in_map key _ _ Hz)). lia.
Qed.

Lemma sort_values_nil (df : list A) :
  Frame.sort_values key df = [] -> df = [].
Proof.
  intros H. destruct df as [|c rest]; [reflexivity|].
  assert (Hin : In c (Frame.sort_values key (c :: rest)))
    by (apply sort_values_In; now left).
  rewrite H in Hin. destruct Hin.
Qed.

Lemma max_key_spec (df : list A) (m : Z) :
  Frame.max_key key df = Some m ->
  (exists x, In x df /\ key x = m) /\ (forall x, In x df -> key x <= m).
Proof.
  destruct df as [|c rest]; simpl; [discriminate|].
  intros [= <-].
  revert c. induction rest as [|d rest IH]; intros c; simpl.
  - split; [exists c; auto|]. intros x [->|[]]. lia.
  - assert (Hstep : exists c', (c' = c \/ c' = d) /\ key c' = Z.max (key c) (key d)).
    { destruct (Z.max_spec (key c) (key d)) as [[_ E]|[_ E]];
        [exists d | exists c]; auto. }
    destruct Hstep as (c' & Hc' & E). rewrite <- E.
    destruct (IH c') as [(x & Hx & Hk) Hle]. split.
    + exists x. split; [|exact Hk]. simpl in *.
      destruct Hx as [<-|Hx]; [destruct Hc' as [->| ->]|]; auto.
    + intros z Hz.
      assert (key c <= key c' /\ key d <= key c') as [L1 L2] by lia.
      pose proof (Hle c' (or_introl eq_refl)) as L3.
      destruct Hz as [->|[->|Hz]]; try lia.
      apply Hle. now right.
Qed.

End FrameFacts.

(** ** Worlds and events *)

Lemma step_of_nil (w : world) : step_of [] w = w.
Proof. destruct w; reflexivity. Qed.

Lemma replay_app (es1 es2 : list event) (d : filesystem) :
  replay (es1 ++ es2) d = replay es2 (replay es1 d).
Proof. unfold replay. apply fold_left_app. Qed.

Lemma requests_of_app (es1 es2 : list event) :
  requests_of (es1 ++ es2) = requests_of es1 ++ requests_of es2.
Proof. unfold requests_of. apply flat_map_app. Qed.

Lemma requests_of_none (es : list event) :
  Forall (fun e => is_request e = false) es -> requests_of es = [].
Proof.
  induction 1 as [|e es He _ IH]; [reflexivity|].
  destruct e; simpl in *; [discriminate|..]; exact IH.
Qed.

Lemma step_of_step_of (es2 es1 : list event) (w : world) :
  step_of es2 (step_of es1 w) = step_of (es2 ++ es1) w.
Proof.
  unfold step_of; simpl. f_equal.
  - now rewrite rev_app_distr, replay_app.
  - rewrite requests_of_app, length_app. lia.
  - now rewrite app_assoc.
Qed.

Lemma history_step_of (es : list event) (w : world) :
  history (step_of es w) = history w ++ rev es.
Proof. unfold history; simpl. apply rev_app_distr. Qed.

(** ** The disk *)

Lemma path_eqb_refl (p : path) : path_eqb p p = true.
Proof. destruct p; simpl; auto using Z.eqb_refl. Qed.

Lemma path_eqb_eq (p q : path) : path_eqb p q = true -> p = q.
Proof.
  destruct p, q; simpl; try discriminate; auto.
  intros H. apply Z.eqb_eq in H. now subst.
Qed.

Lemma fs_set_same (d : filesystem) (p : path) (f : option file) :
  fs_set d p f p = f.
Proof. unfold fs_set. now rewrite path_eqb_refl. Qed.

Lemma fs_set_other (d : filesystem) (p q : path) (f : option file) :
  q <> p -> fs_set d p f q = d q.
Proof.
  intros N. unfold fs_set. destruct (path_eqb q p) eqn:E; [|reflexivity].
  apply path_eqb_eq in E. contradiction.
Qed.

Lemma replay_untouched (es : list event) (d : filesystem) (p : path) :
  Forall (fun e => target e <> Some p) es -> replay es d p = d p.
Proof.
  intros H. revert d. induction H as [|e es He _ IH]; intros d; [reflexivity|].
  simpl. rewrite IH.
  destruct e; simpl in *; try reflexivity; apply fs_set_other; congruence.
Qed.

(** ** The monad *)

Lemma bind_ok {A B} (m : M A) (k : A -> M B) (w w1 : world) (a : A) :
  m w = (Ok a, w1) -> bind m k w = k a w1.
Proof. intros H. unfold bind. now rewrite H. Qed.

Lemma bind_raise {A B} (m : M A) (k : A -> M B) (w w1 : world) (e : exn) :
  m w = (Raise e, w1) -> bind m k w = (Raise e, w1).
Proof. intros H. unfold bind. now rewrite H. Qed.

Lemma emit_step (e : event) (w : world) : emit e w = (Ok tt, step_of [e] w).
Proof. unfold emit, step_of. destruct e; reflexivity. Qed.

Lemma sleep_step (ms : Z) (w : world) : sleep ms w = (Ok tt, step_of [Sleep ms] w).
Proof. apply emit_step. Qed.

Lemma to_csv_step (p : path) (df : DataFrame) (w : world) :
  to_csv p df w =
  (Ok tt, step_of [Append p (CsvHeader :: map CsvRow df); OpenW p] w).
Proof.
  unfold to_csv. rewrite (bind_ok _ _ _ _ _ (emit_step _ _)).
  rewrite emit_step, step_of_step_of. reflexivity.
Qed.

Lemma for_each_step {A} (f : A -> M unit) (g : A -> list event) (l : list A) :
  (forall x w, f x w = (Ok tt, step_of (g x) w)) ->
  forall w, for_each l f w = (Ok tt, step_of (flat_map g (rev l)) w).
Proof.
  intros Hf. induction l as [|x l IH]; intros w; simpl.
  - now rewrite step_of_nil.
  - rewrite (bind_ok _ _ _ _ _ (Hf x w)), IH, step_of_step_of.
    rewrite flat_map_app; simpl. now rewrite app_nil_r.
Qed.

Lemma http_get_step (src : source) (r : request) (w : world) :
  http_get src r w = (Ok (src (issued w) r), step_of [Request r] w).
Proof. unfold http_get. now rewrite (bind_ok _ _ _ _ _ (emit_step _ _)). Qed.

(** ** The Coinbase loop *)

Section CoinbaseFacts.

Import Coinbase.

Variable src : source.
Variables start_date end_date granularity : Z.

Local Abbreviation fetch_candles := (fetch_candles src).
Local Abbreviation retry_loop := (retry_loop src granularity).
Local Abbreviation loop_body := (loop_body src start_date end_date granularity).
Local Abbreviation main_loop := (main_loop src start_date end_date granularity).
Local Abbreviation window_end := (window_end end_date granularity).
Local Abbreviation advance := (advance end_date granularity).
Local Abbreviation attempted := (attempted src end_date granularity).

Lemma with_failed_nil (ls : loop_state) : with_failed ls [] = ls.
Proof. destruct ls; unfold with_failed; simpl. now rewrite app_nil_r. Qed.

Lemma fetch_candles_step (cs ce lim : Z) (w : world) :
  fetch_candles cs ce granularity lim w =
  match granularity_map granularity with
  | None => (Ok None, w)
  | Some name =>
      (Ok (parse_response (src (issued w) (candles_params name cs ce granularity lim))),
       step_of [Request (candles_params name cs ce granularity lim)] w)
  end.
Proof.
  unfold Coinbase.fetch_candles.
  destruct (granularity_map granularity); [|reflexivity].
  now rewrite (bind_ok _ _ _ _ _ (http_get_step _ _ _)).
Qed.

(** A frame that [fetch_candles] returns has rows. *)
Lemma parse_response_rows (r : response) (d : DataFrame) :
  parse_response r = Some d -> d <> [].
Proof.
  destruct r as [|status b]; simpl; [discriminate|].
  destruct (raise_for_status status); [discriminate|].
  destruct b as [|[|c cs]|]; try discriminate.
  intros [= <-] H. apply (sort_values_nil timestamp (c :: cs)) in H. discriminate.
Qed.

Lemma retry_loop_done (budget : nat) (ce rc : Z) (df : option DataFrame)
      (ls : loop_state) (w : world) :
  (rc <? max_retries) && (match df with None => true | Some _ => false end) = false ->
  retry_loop budget ce rc df ls w = (Ok (df, ls), w).
Proof. intros H. destruct budget; simpl; now rewrite H. Qed.

(** One attempt of the retry loop, when the granularity is one the API
    knows. *)
Lemma retry_loop_attempt (name : granularity_name) (budget : nat) (ce rc : Z)
      (ls : loop_state) (w : world) :
  granularity_map granularity = Some name ->
  rc < max_retries ->
  let req := candles_params name (current_start ls) ce granularity 300 in
  retry_loop (S budget) ce rc None ls w =
  match parse_response (src (issued w) req) with
  | Some d => (Ok (Some d, ls), step_of [Request req] w)
  | None =>
      if rc + 1 <? max_retries
      then retry_loop budget ce (rc + 1) None ls (step_of [Sleep 2000; Request req] w)
      else (Ok (None, with_failed ls [(current_start ls, ce)]),
            step_of [Request req] w)
  end.
Proof.
  intros Hg Hrc req. simpl.
  apply Z.ltb_lt in Hrc. rewrite Hrc. cbn [andb].
  pose proof (fetch_candles_step (current_start ls) ce 300 w) as F.
  rewrite Hg in F. fold req in F.
  rewrite (bind_ok _ _ _ _ _ F).
  destruct (parse_response (src (issued w) req)) as [d|].
  - apply retry_loop_done. now rewrite andb_false_r.
  - destruct (rc + 1 <? max_retries) eqn:E.
    + rewrite (bind_ok _ _ _ _ _ (sleep_step _ _)), step_of_step_of. reflexivity.
    + apply retry_loop_done. now rewrite E.
Qed.

(** The same when [fetch_candles] rejects the granularity: no request is
    sent. *)
Lemma retry_loop_rejected (budget : nat) (ce rc : Z)
      (ls : loop_state) (w : world) :
  granularity_map granularity = None ->
  rc < max_retries ->
  retry_loop (S budget) ce rc None ls w =
  if rc + 1 <? max_retries
  then retry_loop budget ce (rc + 1) None ls (step_of [Sleep 2000] w)
  else (Ok (None, with_failed ls [(current_start ls, ce)]), w).
Proof.
  intros Hg Hrc. simpl.
  apply Z.ltb_lt in Hrc. rewrite Hrc. cbn [andb].
  pose proof (fetch_candles_step (current_start ls) ce 300 w) as F.
  rewrite Hg in F. rewrite (bind_ok _ _ _ _ _ F).
  destruct (rc + 1 <? max_retries) eqn:E.
  - rewrite (bind_ok _ _ _ _ _ (sleep_step _ _)). reflexivity.
  - apply retry_loop_done. now rewrite E.
Qed.

(** The retry loop of one window, unrolled: at most three requests. *)
Lemma retry_loop_unrolled (name : granularity_name) (ce : Z)
      (ls : loop_state) (w : world) :
  granularity_map granularity = Some name ->
  let req := candles_params name (current_start ls) ce granularity 300 in
  let answer (i : nat) := parse_response (src (i + issued w)%nat req) in
  retry_loop (Z.to_nat max_retries) ce 0 None ls w =
  match answer 0%nat with
  | Some d => (Ok (Some d, ls), step_of [Request req] w)
  | None =>
      match answer 1%nat with
      | Some d => (Ok (Some d, ls), step_of [Request req; Sleep 2000; Request req] w)
      | None =>
          match answer 2%nat with
          | Some d =>
              (Ok (Some d, ls),
               step_of [Request req; Sleep 2000; Request req; Sleep 2000; Request req] w)
          | None =>
              (Ok (None, with_failed ls [(current_start ls, ce)]),
               step_of [Request req; Sleep 2000; Request req; Sleep 2000; Request req] w)
          end
      end
  end.
Proof.
  intros Hg req answer. subst answer. cbv beta.
  change (Z.to_nat max_retries) with 3%nat.
  rewrite (retry_loop_attempt name) by (auto; reflexivity). fold req.
  cbn [plus]. destruct (parse_response (src (issued w) req)); [reflexivity|].
  change (0 + 1 <? max_retries) with true. cbv iota.
  rewrite (retry_loop_attempt name) by (auto; reflexivity). fold req.
  rewrite !step_of_step_of.
  change (issued (step_of [Sleep 2000; Request req] w)) with (S (issued w)).
  destruct (parse_response (src (S (issued w)) req)); [reflexivity|].
  change (0 + 1 + 1 <? max_retries) with true. cbv iota.
  rewrite (retry_loop_attempt name) by (auto; reflexivity). fold req.
  rewrite !step_of_step_of.
  change (issued (step_of ([Sleep 2000; Request req] ++ [Sleep 2000; Request req]) w))
    with (S (S (issued w))).
  destruct (parse_response (src (S (S (issued w))) req)); [reflexivity|].
  change (0 + 1 + 1 + 1 <? max_retries) with false. cbv iota.
  reflexivity.
Qed.

Lemma retry_loop_unrolled_rejected (ce : Z) (ls : loop_state) (w : world) :
  granularity_map granularity = None ->
  retry_loop (Z.to_nat max_retries) ce 0 None ls w =
  (Ok (None, with_failed ls [(current_start ls, ce)]),
   step_of [Sleep 2000; Sleep 2000] w).
Proof.
  intros Hg. change (Z.to_nat max_retries) with 3%nat.
  rewrite retry_loop_rejected by (auto; reflexivity).
  change (0 + 1 <? max_retries) with true. cbv iota.
  rewrite retry_loop_rejected by (auto; reflexivity).
  change (0 + 1 + 1 <? max_retries) with true. cbv iota.
  rewrite retry_loop_rejected by (auto; reflexivity).
  change (0 + 1 + 1 + 1 <? max_retries) with false. cbv iota.
  rewrite step_of_step_of. reflexivity.
Qed.

Lemma retry_loop_summary (ls : loop_state) (w : world) :
  exists df es,
    (forall ls0,
        current_start ls0 = current_start ls ->
        retry_loop (Z.to_nat max_retries) (window_end (current_start ls)) 0 None ls0 w =
        (Ok (df, with_failed ls0
                   match df with
                   | Some _ => []
                   | None => [(current_start ls, window_end (current_start ls))]
                   end),
         step_of es w))
    /\ attempted ls w df es.
Proof.
  unfold attempted.
  destruct (granularity_map granularity) as [name|] eqn:Hg.
  - set (req := candles_params name (current_start ls)
                  (window_end (current_start ls)) granularity 300).
    assert (Hrun : forall ls0,
               current_start ls0 = current_start ls ->
               retry_loop (Z.to_nat max_retries) (window_end (current_start ls))
                          0 None ls0 w = _)
      by (intros ls0 Hcs; rewrite (retry_loop_unrolled name) by exact Hg;
          cbv zeta; rewrite Hcs; fold req; cbn [plus]; reflexivity).
    destruct (parse_response (src (issued w) req)) as [d|] eqn:E0;
      [|destruct (parse_response (src (S (issued w)) req)) as [d|] eqn:E1;
        [|destruct (parse_response (src (S (S (issued w))) req)) as [d|] eqn:E2]].
    1-3: exists (Some d); eexists; split;
      [intros ls0 Hcs; rewrite with_failed_nil; apply (Hrun ls0 Hcs)|].
    4: exists None; eexists; split; [intros ls0 Hcs; apply (Hrun ls0 Hcs)|].
    all: split; [repeat constructor|].
    all: split; [simpl; lia|].
    all: split; [intros d' [= <-] || intros d' [=] | intros [=] || intros _].
    all: try (split; [eapply parse_response_rows; eassumption|]).
    all: try (intros name' [= <-]; assumption).
    + exists (issued w), name. auto.
    + exists (S (issued w)), name. auto.
    + exists (S (S (issued w))), name. auto.
  - exists None; eexists. split.
    + intros ls0 Hcs. rewrite retry_loop_unrolled_rejected by exact Hg.
      rewrite Hcs. reflexivity.
    + split; [repeat constructor|]. split; [simpl; lia|].
      split; [intros d' [=] | intros _ name' [=]].
Qed.

Lemma save_checkpoint_step (frames : list DataFrame) (w : world) :
  save_checkpoint frames w = (Ok tt, step_of (checkpoint_events frames) w).
Proof.
  unfold save_checkpoint, checkpoint_events, backup_events.
  rewrite (bind_ok _ _ _ _ _ (to_csv_step _ _ _)).
  rewrite (for_each_step _
             (fun year =>
                [Append (year_file year)
                   (CsvHeader :: map CsvRow (rows_of_year year (combine frames)));
                 OpenW (year_file year)])) by (intros; apply to_csv_step).
  now rewrite step_of_step_of.
Qed.

Lemma saved_events_step (ls : loop_state) (d : DataFrame) (w : world) :
  when ((request_count ls + 1) mod 100 =? 0)
       (save_checkpoint (all_data ls ++ [d])) w =
  (Ok tt, step_of (saved_events ls (Some d)) w).
Proof.
  unfold when, saved_events.
  destruct ((request_count ls + 1) mod 100 =? 0).
  - apply save_checkpoint_step.
  - now rewrite step_of_nil.
Qed.

(** One iteration of the main loop, from what its retry loop does. *)
Lemma loop_body_from_retry (ls : loop_state) (w : world)
      (df : option DataFrame) (es : list event) :
  total_seconds start_date end_date <> 0 ->
  (forall ls0,
      current_start ls0 = current_start ls ->
      retry_loop (Z.to_nat max_retries) (window_end (current_start ls)) 0 None ls0 w =
      (Ok (df, with_failed ls0
                 match df with
                 | Some _ => []
                 | None => [(current_start ls, window_end (current_start ls))]
                 end),
       step_of es w)) ->
  (forall d, df = Some d -> d <> []) ->
  loop_body ls w =
  (Ok (advance ls df),
   step_of (Sleep 500 :: saved_events ls df ++ es) w).
Proof.
  intros Hts Hrun Hrows. unfold Coinbase.loop_body.
  apply Z.eqb_neq in Hts. rewrite Hts.
  set (ls0 := {| all_data := all_data ls; current_start := current_start ls;
                 request_count := request_count ls + 1;
                 failed_requests := failed_requests ls |}).
  specialize (Hrun ls0 eq_refl).
  unfold bind at 1. cbn [ret].
  unfold batch_seconds in *. fold (window_end (current_start ls)).
  rewrite (bind_ok _ _ _ _ _ Hrun).
  destruct df as [d|].
  - specialize (Hrows d eq_refl).
    destruct d as [|c d]; [congruence|]. cbn [Frame.empty negb].
    change (all_data (with_failed ls0 [])) with (all_data ls).
    change (failed_requests (with_failed ls0 [])) with (failed_requests ls ++ []).
    assert (Hsave :
              (when ((request_count ls + 1) mod 100 =? 0)
                    (save_checkpoint (all_data ls ++ [c :: d]));;;
               ret (all_data ls ++ [c :: d])) (step_of es w) =
              (Ok (all_data ls ++ [c :: d]),
               step_of (saved_events ls (Some (c :: d))) (step_of es w)))
      by now rewrite (bind_ok _ _ _ _ _ (saved_events_step _ _ _)).
    rewrite (bind_ok _ _ _ _ _ Hsave).
    rewrite (bind_ok _ _ _ _ _ (sleep_step _ _)), !step_of_step_of.
    reflexivity.
  - change (all_data (with_failed ls0 _)) with (all_data ls).
    change (failed_requests (with_failed ls0 ?l)) with (failed_requests ls ++ l).
    unfold bind at 1. cbn [ret].
    rewrite (bind_ok _ _ _ _ _ (sleep_step _ _)), !step_of_step_of.
    unfold advance. now rewrite app_nil_r.
Qed.

(** One iteration of the main loop: it never runs out of fuel, and it
    raises only when the range is empty. *)
Lemma loop_body_step (ls : loop_state) (w : world) :
  total_seconds start_date end_date <> 0 ->
  exists df es,
    attempted ls w df es /\
    loop_body ls w =
    (Ok (advance ls df),
     step_of (Sleep 500 :: saved_events ls df ++ es) w).
Proof.
  intros Hts.
  destruct (retry_loop_summary ls w) as (df & es & Hrun & Hatt).
  exists df, es. split; [exact Hatt|].
  apply loop_body_from_retry; [exact Hts | exact Hrun |].
  intros d Hd. destruct Hatt as (_ & _ & Hrows & _).
  now destruct (Hrows d Hd).
Qed.

Lemma loop_body_empty_range (ls : loop_state) (w : world) :
  total_seconds start_date end_date = 0 ->
  loop_body ls w = (Raise ZeroDivisionError, w).
Proof.
  intros Hts. unfold Coinbase.loop_body. rewrite Hts. reflexivity.
Qed.

(** *** The main loop *)

Lemma main_loop_exit (fuel : nat) (ls : loop_state) (w : world) :
  end_date <= current_start ls -> main_loop fuel ls w = (Ok ls, w).
Proof.
  intros H. apply Z.ltb_ge in H. destruct fuel; simpl; now rewrite H.
Qed.

Lemma main_loop_iterate (fuel : nat) (ls : loop_state) (w : world) :
  current_start ls < end_date ->
  main_loop (S fuel) ls w = bind (loop_body ls) (main_loop fuel) w.
Proof. intros H. apply Z.ltb_lt in H. simpl. now rewrite H. Qed.

Lemma window_end_advances (cs : Z) :
  0 < granularity -> cs < end_date ->
  cs < window_end cs <= end_date.
Proof. unfold Coinbase.window_end, batch_seconds. lia. Qed.

Lemma windows_needed_none (cs : Z) :
  0 < granularity ->
  windows_needed end_date granularity cs = 0%nat -> end_date <= cs.
Proof.
  unfold windows_needed, batch_seconds. intros Hg H.
  destruct (Z_lt_le_dec cs end_date) as [Hlt|]; [|assumption].
  assert (1 <= (end_date - cs + 300 * granularity - 1) / (300 * granularity))
    by (apply Z.div_le_lower_bound; lia).
  lia.
Qed.

Lemma windows_needed_next (cs : Z) :
  0 < granularity -> cs < end_date ->
  S (windows_needed end_date granularity (window_end cs))
  = windows_needed end_date granularity cs.
Proof.
  unfold windows_needed, Coinbase.window_end, batch_seconds. intros Hg Hlt.
  set (B := 300 * granularity). assert (HB : 0 < B) by (subst B; lia).
  destruct (Z_le_gt_dec (cs + B) end_date) as [Hle|Hgt].
  - rewrite Z.min_l by lia.
    replace (end_date - cs + B - 1) with (end_date - (cs + B) + B - 1 + 1 * B) by lia.
    rewrite Z.div_add by lia.
    assert (0 <= (end_date - (cs + B) + B - 1) / B) by (apply Z.div_pos; lia).
    lia.
  - rewrite Z.min_r by lia.
    replace (end_date - end_date + B - 1) with (B - 1) by lia.
    rewrite Z.div_small by lia.
    assert ((end_date - cs + B - 1) / B = 1); [|lia].
    symmetry. apply Z.div_unique with (r := end_date - cs - 1); lia.
Qed.


(** The loop rule: with a positive granularity and a range that is not
    empty, the loop ends within [windows_needed] iterations, and a property
    that every iteration keeps holds of the variables it ends with. *)
Lemma main_loop_invariant (P : loop_state -> Prop) :
  total_seconds start_date end_date <> 0 ->
  0 < granularity ->
  (forall ls w df es,
      P ls -> current_start ls < end_date -> attempted ls w df es ->
      P (advance ls df)) ->
  forall fuel ls w,
    P ls ->
    (windows_needed end_date granularity (current_start ls) <= fuel)%nat ->
    exists ls' es,
      main_loop fuel ls w = (Ok ls', step_of es w)
      /\ P ls' /\ end_date <= current_start ls'.
Proof.
  intros Hts Hg Hstep. induction fuel as [|fuel IH]; intros ls w HP Hfuel.
  - exists ls, []. rewrite step_of_nil.
    assert (end_date <= current_start ls)
      by (apply windows_needed_none; [exact Hg | lia]).
    split; [now apply main_loop_exit | auto].
  - destruct (Z_lt_le_dec (current_start ls) end_date) as [Hlt|Hge].
    + rewrite main_loop_iterate by exact Hlt.
      destruct (loop_body_step ls w Hts) as (df & es & Hatt & Hbody).
      rewrite (bind_ok _ _ _ _ _ Hbody).
      pose proof (windows_needed_next _ Hg Hlt) as Hnext.
      destruct (IH (advance ls df)
                   (step_of (Sleep 500 :: saved_events ls df ++ es) w))
        as (ls' & es' & Hrun & HP' & Hend).
      * eapply Hstep; eauto.
      * cbn [current_start advance]. lia.
      * exists ls', (es' ++ Sleep 500 :: saved_events ls df ++ es).
        now rewrite Hrun, step_of_step_of.
    + exists ls, []. rewrite step_of_nil.
      split; [now apply main_loop_exit | auto].
Qed.

(** With a range that is empty the loop raises at its first iteration, if
    it has one. *)
Lemma main_loop_empty_range (fuel : nat) (ls : loop_state) (w : world) :
  total_seconds start_date end_date = 0 ->
  main_loop (S fuel) ls w =
  if current_start ls <? end_date then (Raise ZeroDivisionError, w) else (Ok ls, w).
Proof.
  intros Hts. simpl. destruct (current_start ls <? end_date); [|reflexivity].
  now rewrite (bind_raise _ _ _ _ _ (loop_body_empty_range ls w Hts)).
Qed.

(** *** Before and after the loop *)

Local Abbreviation load_checkpoint := (load_checkpoint start_date granularity).
Local Abbreviation fetch_loop := (fetch_loop src start_date end_date granularity).
Local Abbreviation fetch_complete_historical_data :=
  (fetch_complete_historical_data src start_date end_date granularity).

Lemma load_checkpoint_absent (w : world) :
  disk w main_checkpoint = None ->
  load_checkpoint w = (Ok ([], Some start_date), w).
Proof.
  intros H. unfold Coinbase.load_checkpoint, bind, path_exists. now rewrite H.
Qed.

Lemma load_checkpoint_present (w : world) (f : file) :
  disk w main_checkpoint = Some f ->
  load_checkpoint w =
  match parse_csv f with
  | Ok existing_df =>
      (Ok ([existing_df],
           option_map (fun t => t + granularity)
                      (Frame.max_key timestamp existing_df)), w)
  | Raise e => (Raise e, w)
  | OutOfFuel => (OutOfFuel, w)
  end.
Proof.
  intros H. unfold Coinbase.load_checkpoint, bind, path_exists, read_csv.
  rewrite H. cbv beta iota. rewrite H. destruct (parse_csv f); reflexivity.
Qed.

Lemma parse_csv_total (f : file) : parse_csv f <> OutOfFuel.
Proof.
  destruct f as [|[] rest]; simpl; try discriminate.
  destruct (rows_of rest); discriminate.
Qed.

Lemma finalize_nothing (ls : loop_state) (w : world) :
  all_data ls = [] -> finalize ls w = (Ok None, w).
Proof. intros H. unfold finalize. now rewrite H. Qed.

Lemma finalize_step (ls : loop_state) (w : world) :
  all_data ls <> [] ->
  finalize ls w =
  (Ok (Some (combine (all_data ls))), step_of (rev (finalize_history ls w)) w).
Proof.
  intros Hne. unfold finalize, finalize_history.
  destruct (all_data ls) as [|d frames] eqn:Hall; [congruence|].
  set (report := fun fw : window => Append fail_file [WindowLine (fst fw) (snd fw)]).
  assert (Hreport :
            forall w0,
              when (match failed_requests ls with [] => false | _ => true end)
                   (emit (OpenW fail_file) ;;;
                    for_each (failed_requests ls) (fun fw => emit (report fw))) w0 =
              (Ok tt,
               step_of (rev match failed_requests ls with
                            | [] => []
                            | _ :: _ => OpenW fail_file :: map report (failed_requests ls)
                            end) w0)).
  { intros w0. destruct (failed_requests ls) as [|fw fl] eqn:Hf.
    - simpl. now rewrite step_of_nil.
    - unfold when. rewrite (bind_ok _ _ _ _ _ (emit_step _ _)).
      rewrite (for_each_step _ (fun fw => [report fw]))
        by (intros; apply emit_step).
      rewrite step_of_step_of. f_equal. f_equal.
      change (rev (OpenW fail_file :: map report (fw :: fl)))
        with (rev (map report (fw :: fl)) ++ [OpenW fail_file]).
      f_equal. rewrite <- map_rev.
      generalize (rev (fw :: fl)). intros l.
      induction l as [|x l IH]; simpl; congruence. }
  rewrite (bind_ok _ _ _ _ _ (Hreport w)).
  set (es := rev _).
  assert (Hdisk : disk (step_of es w) main_checkpoint = disk w main_checkpoint).
  { simpl. apply replay_untouched. subst es. rewrite rev_involutive.
    destruct (failed_requests ls); constructor; [discriminate|].
    apply Forall_forall. intros e He.
    apply in_map_iff in He as (fw & <- & _). discriminate. }
  unfold bind at 1, path_exists at 1. rewrite Hdisk.
  rewrite rev_app_distr. fold es.
  destruct (disk w main_checkpoint).
  - unfold when, os_remove. rewrite (bind_ok _ _ _ _ _ (emit_step _ _)).
    now rewrite step_of_step_of.
  - simpl. reflexivity.
Qed.

Lemma replay_report_lines (fl : list window) (d : filesystem) (old : file) :
  d fail_file = Some old ->
  replay (map (fun fw => Append fail_file [WindowLine (fst fw) (snd fw)]) fl) d
         fail_file =
  Some (old ++ map (fun fw => WindowLine (fst fw) (snd fw)) fl).
Proof.
  revert d old. induction fl as [|fw fl IH]; intros d old Hd; simpl.
  - now rewrite app_nil_r.
  - erewrite IH by (rewrite fs_set_same, Hd; reflexivity).
    now rewrite <- app_assoc.
Qed.

Lemma replay_report (fl : list window) (d : filesystem) :
  replay (OpenW fail_file ::
          map (fun fw => Append fail_file [WindowLine (fst fw) (snd fw)]) fl) d
         fail_file =
  Some (map (fun fw => WindowLine (fst fw) (snd fw)) fl).
Proof.
  simpl. now rewrite (replay_report_lines fl _ []) by apply fs_set_same.
Qed.

(** After [finalize] returned a frame there is no checkpoint; the failed
    windows, if any, are in the report file. *)
Lemma finalize_disk (ls : loop_state) (w : world) :
  let d := disk (step_of (rev (finalize_history ls w)) w) in
  d main_checkpoint = None /\
  d fail_file =
  match failed_requests ls with
  | [] => disk w fail_file
  | fl => Some (map (fun fw => WindowLine (fst fw) (snd fw)) fl)
  end.
Proof.
  cbv zeta. cbn [disk step_of]. rewrite rev_involutive.
  unfold finalize_history. rewrite replay_app.
  set (report := fun fw : window => Append fail_file [WindowLine (fst fw) (snd fw)]).
  match goal with
  | |- context [replay ?es (disk w)] => set (d1 := replay es (disk w))
  end.
  assert (H1 : d1 main_checkpoint = disk w main_checkpoint).
  { apply replay_untouched.
    destruct (failed_requests ls); constructor; [discriminate|].
    apply Forall_forall. intros e He.
    apply in_map_iff in He as (fw & <- & _). discriminate. }
  assert (H2 : d1 fail_file =
               match failed_requests ls with
               | [] => disk w fail_file
               | fl => Some (map (fun fw => WindowLine (fst fw) (snd fw)) fl)
               end).
  { subst d1. destruct (failed_requests ls) as [|fw fl]; [reflexivity|].
    apply replay_report. }
  clearbody d1.
  destruct (disk w main_checkpoint) eqn:Hck; cbn [replay fold_left apply_event].
  - rewrite fs_set_same. split; [reflexivity|].
    rewrite fs_set_other by discriminate. exact H2.
  - split; [congruence | exact H2].
Qed.

Lemma finalize_requests (ls : loop_state) (w : world) :
  requests_of (rev (finalize_history ls w)) = [].
Proof.
  apply requests_of_none, Forall_rev. unfold finalize_history.
  apply Forall_app. split.
  - destruct (failed_requests ls); constructor; [reflexivity|].
    apply Forall_forall. intros e He.
    apply in_map_iff in He as (fw & <- & _). reflexivity.
  - destruct (disk w main_checkpoint); repeat constructor.
Qed.

End CoinbaseFacts.

(** ** Termination *)

Section Totality.

Import Coinbase.

Variable src : source.
Variables start_date end_date granularity : Z.
Hypothesis granularity_pos : 0 < granularity.

Lemma main_loop_total (ls : loop_state) (w : world) :
  exists fuel0, forall fuel, (fuel0 <= fuel)%nat ->
    fst (main_loop src start_date end_date granularity fuel ls w) <> OutOfFuel.
Proof.
  destruct (Z.eq_dec (total_seconds start_date end_date) 0) as [Hts|Hts].
  - exists 1%nat. intros [|fuel] Hf; [lia|].
    rewrite main_loop_empty_range by exact Hts.
    destruct (current_start ls <? end_date); discriminate.
  - exists (windows_needed end_date granularity (current_start ls)). intros fuel Hf.
    destruct (main_loop_invariant src start_date end_date granularity
                (fun _ => True) Hts granularity_pos (fun _ _ _ _ _ _ _ => I)
                fuel ls w I Hf) as (ls' & es & Hrun & _).
    rewrite Hrun. discriminate.
Qed.

Lemma fetch_loop_total (w : world) :
  exists fuel0, forall fuel, (fuel0 <= fuel)%nat ->
    fst (fetch_loop src start_date end_date granularity fuel w) <> OutOfFuel.
Proof.
  unfold fetch_loop.
  assert (Hg : (granularity =? 0) = false) by (apply Z.eqb_neq; lia).
  rewrite Hg. unfold bind at 1. cbn [ret].
  destruct (disk w main_checkpoint) as [f|] eqn:Hck.
  - pose proof (load_checkpoint_present start_date granularity w f Hck) as Hload.
    destruct (parse_csv f) as [df|e|] eqn:Hparse.
    + destruct (Frame.max_key timestamp df) as [t|] eqn:Hmax.
      * destruct (main_loop_total
                    {| all_data := [df]; current_start := t + granularity;
                       request_count := 0; failed_requests := [] |} w)
          as (fuel0 & Hfuel).
        exists fuel0. intros fuel Hf.
        rewrite (bind_ok _ _ _ _ _ Hload). apply Hfuel, Hf.
      * exists 0%nat. intros fuel _.
        rewrite (bind_ok _ _ _ _ _ Hload). discriminate.
    + exists 0%nat. intros fuel _.
      rewrite (bind_raise _ _ _ _ _ Hload). discriminate.
    + now apply parse_csv_total in Hparse.
  - pose proof (load_checkpoint_absent start_date granularity w Hck) as Hload.
    destruct (main_loop_total
                {| all_data := []; current_start := start_date;
                   request_count := 0; failed_requests := [] |} w)
      as (fuel0 & Hfuel).
    exists fuel0. intros fuel Hf.
    rewrite (bind_ok _ _ _ _ _ Hload). apply Hfuel, Hf.
Qed.

Lemma finalize_total (ls : loop_state) (w : world) :
  fst (finalize ls w) <> OutOfFuel.
Proof.
  destruct (all_data ls) eqn:Hall.
  - rewrite finalize_nothing by exact Hall. discriminate.
  - rewrite finalize_step by congruence. discriminate.
Qed.

(** The bulk fetch returns or raises, given enough fuel. *)
Lemma fetch_total (w : world) :
  exists fuel0, forall fuel, (fuel0 <= fuel)%nat ->
    fst (fetch_complete_historical_data src start_date end_date granularity fuel w)
    <> OutOfFuel.
Proof.
  destruct (fetch_loop_total w) as (fuel0 & Hfuel).
  exists fuel0. intros fuel Hf. specialize (Hfuel fuel Hf).
  unfold fetch_complete_historical_data, bind.
  destruct (fetch_loop src start_date end_date granularity fuel w) as [[ls|e|] w1];
    simpl in *; try congruence; try discriminate.
  apply finalize_total.
Qed.

End Totality.

(** ** What the bulk fetch returns *)

Section Returned.

Import Coinbase.

Variable src : source.
Variables start_date end_date granularity : Z.

Local Abbreviation fetch_loop := (fetch_loop src start_date end_date granularity).
Local Abbreviation fetch_complete_historical_data :=
  (fetch_complete_historical_data src start_date end_date granularity).

Lemma fetch_loop_eq (fuel : nat) (w : world) :
  granularity <> 0 ->
  fetch_loop fuel w =
  bind (load_checkpoint start_date granularity)
       (fun loaded => run_loop src start_date end_date granularity fuel
                               (fst loaded) (snd loaded)) w.
Proof.
  intros Hg. apply Z.eqb_neq in Hg.
  unfold Coinbase.fetch_loop. rewrite Hg. reflexivity.
Qed.

Lemma fetch_loop_fresh (fuel : nat) (w : world) :
  granularity <> 0 ->
  disk w main_checkpoint = None ->
  fetch_loop fuel w =
  main_loop src start_date end_date granularity fuel
    {| all_data := []; current_start := start_date;
       request_count := 0; failed_requests := [] |} w.
Proof.
  intros Hg Hck. rewrite fetch_loop_eq by exact Hg.
  now rewrite (bind_ok _ _ _ _ _ (load_checkpoint_absent start_date granularity w Hck)).
Qed.

(** A run that returns a frame went through the loop and had frames to
    combine. *)
Lemma fetch_returns_inv (fuel : nat) (w : world) (df : DataFrame) :
  fst (fetch_complete_historical_data fuel w) = Ok (Some df) ->
  exists ls w1,
    fetch_loop fuel w = (Ok ls, w1)
    /\ all_data ls <> []
    /\ fetch_complete_historical_data fuel w =
       (Ok (Some (combine (all_data ls))), step_of (rev (finalize_history ls w1)) w1)
    /\ df = combine (all_data ls).
Proof.
  unfold Coinbase.fetch_complete_historical_data, bind.
  destruct (fetch_loop fuel w) as [[ls|e|] w1]; simpl; try discriminate.
  intros H. exists ls, w1.
  destruct (all_data ls) as [|d frames] eqn:Hall.
  - rewrite finalize_nothing in H by exact Hall. discriminate.
  - assert (Hne : all_data ls <> []) by congruence.
    rewrite finalize_step in * by exact Hne.
    simpl in H. rewrite Hall in *. inversion H. auto.
Qed.

Lemma fetch_returns (fuel : nat) (w w1 : world) (ls : loop_state) :
  fetch_loop fuel w = (Ok ls, w1) ->
  all_data ls <> [] ->
  fetch_complete_historical_data fuel w =
  (Ok (Some (combine (all_data ls))), step_of (rev (finalize_history ls w1)) w1).
Proof.
  intros Hloop Hne. unfold Coinbase.fetch_complete_historical_data.
  rewrite (bind_ok _ _ _ _ _ Hloop). now apply finalize_step.
Qed.

End Returned.

(** ** Every effect is logged *)

Lemma logged_ret {A} (a : A) : logged (ret a).
Proof. intros w. exists []. now rewrite step_of_nil. Qed.

Lemma logged_raise {A} (e : exn) : logged (@raise A e).
Proof. intros w. exists []. now rewrite step_of_nil. Qed.

Lemma logged_out_of_fuel {A} : logged (@out_of_fuel A).
Proof. intros w. exists []. now rewrite step_of_nil. Qed.

Lemma logged_bind {A B} (m : M A) (k : A -> M B) :
  logged m -> (forall a, logged (k a)) -> logged (bind m k).
Proof.
  intros Hm Hk w. unfold bind.
  destruct (Hm w) as (es & Hes).
  destruct (m w) as [[a|e|] w1]; simpl in Hes; subst w1.
  - destruct (Hk a (step_of es w)) as (es' & Hes').
    exists (es' ++ es). now rewrite Hes', step_of_step_of.
  - now exists es.
  - now exists es.
Qed.

Lemma logged_emit (e : event) : logged (emit e).
Proof. intros w. exists [e]. now rewrite emit_step. Qed.

Lemma logged_path_exists (p : path) : logged (path_exists p).
Proof. intros w. exists []. now rewrite step_of_nil. Qed.

Lemma logged_read_csv (p : path) : logged (read_csv p).
Proof.
  intros w. exists []. rewrite step_of_nil. unfold read_csv.
  now destruct (disk w p).
Qed.

Lemma logged_when (b : bool) (m : M unit) : logged m -> logged (when b m).
Proof. intros Hm. destruct b; [exact Hm | apply logged_ret]. Qed.

Lemma logged_for_each {A} (l : list A) (f : A -> M unit) :
  (forall x, logged (f x)) -> logged (for_each l f).
Proof.
  intros Hf. induction l as [|x l IH]; simpl.
  - apply logged_ret.
  - apply logged_bind; auto.
Qed.

Lemma logged_to_csv (p : path) (df : DataFrame) : logged (to_csv p df).
Proof. intros w. eexists. now rewrite to_csv_step. Qed.

Lemma logged_http_get (src : source) (r : request) : logged (http_get src r).
Proof. intros w. eexists. now rewrite http_get_step. Qed.

Create HintDb logged.
#[local] Hint Resolve logged_ret logged_raise logged_out_of_fuel logged_emit
  logged_path_exists logged_read_csv logged_when logged_for_each logged_to_csv
  logged_http_get : logged.

Ltac logged_steps :=
  repeat first
    [ apply logged_bind; [|intros ?]
    | progress auto with logged
    | match goal with
      | |- logged (match ?x with _ => _ end) => destruct x
      | |- logged (if ?b then _ else _) => destruct b
      | |- logged (let '(_, _) := ?x in _) => destruct x
      end ].

Section Logged.

Import Coinbase.

Variable src : source.
Variables start_date end_date granularity : Z.

Lemma logged_fetch_candles (cs ce lim : Z) :
  logged (fetch_candles src cs ce granularity lim).
Proof. unfold fetch_candles. logged_steps. Qed.

Lemma logged_retry_loop (budget : nat) (ce rc : Z) (df : option DataFrame)
      (ls : loop_state) :
  logged (retry_loop src granularity budget ce rc df ls).
Proof.
  revert rc df ls. induction budget as [|budget IH]; intros rc df ls; simpl.
  - logged_steps.
  - destruct (_ && _); [|apply logged_ret].
    apply logged_bind; [apply logged_fetch_candles|].
    intros [d|]; [apply IH|].
    destruct (_ <? _); [|apply IH].
    apply logged_bind; [unfold sleep; auto with logged | intros _; apply IH].
Qed.

Lemma logged_save_checkpoint (frames : list DataFrame) :
  logged (save_checkpoint frames).
Proof. intros w. eexists. now rewrite save_checkpoint_step. Qed.

Lemma logged_loop_body (ls : loop_state) :
  logged (loop_body src start_date end_date granularity ls).
Proof.
  unfold loop_body.
  apply logged_bind; [destruct (_ =? _); auto with logged | intros _].
  apply logged_bind; [apply logged_retry_loop | intros [df ls1]].
  apply logged_bind.
  - destruct df as [d|]; [|apply logged_ret].
    destruct (negb _); [|apply logged_ret].
    apply logged_bind; [|intros _; apply logged_ret].
    apply logged_when, logged_save_checkpoint.
  - intros frames. apply logged_bind; [apply logged_emit | intros _; apply logged_ret].
Qed.

Lemma logged_main_loop (fuel : nat) (ls : loop_state) :
  logged (main_loop src start_date end_date granularity fuel ls).
Proof.
  revert ls. induction fuel as [|fuel IH]; intros ls; simpl;
    destruct (_ <? _); auto with logged.
  apply logged_bind; [apply logged_loop_body | exact IH].
Qed.

Lemma logged_finalize (ls : loop_state) : logged (finalize ls).
Proof.
  unfold finalize. destruct (all_data ls); [apply logged_ret|].
  apply logged_bind; [|intros _].
  - apply logged_when. apply logged_bind; [apply logged_emit | intros _].
    apply logged_for_each. intros fw. apply logged_emit.
  - apply logged_bind; [apply logged_path_exists | intros found].
    apply logged_bind; [apply logged_when, logged_emit | intros _; apply logged_ret].
Qed.

Lemma logged_fetch (fuel : nat) :
  logged (fetch_complete_historical_data src start_date end_date granularity fuel).
Proof.
  unfold fetch_complete_historical_data, fetch_loop.
  apply logged_bind; [|intros ls; apply logged_finalize].
  apply logged_bind; [destruct (_ =? _); auto with logged | intros _].
  apply logged_bind; [|intros [frames [t|]]; [apply logged_main_loop | apply logged_ret]].
  unfold load_checkpoint.
  apply logged_bind; [apply logged_path_exists | intros [|]; [|apply logged_ret]].
  apply logged_bind; [apply logged_read_csv | intros df; apply logged_ret].
Qed.

(** Whatever a run of the bulk fetch does, the disk it leaves is the disk
    it started from after the events of its history: a crash during the run
    leaves the disk after a prefix of these events. *)
Lemma fetch_disk_is_replay (fuel : nat) (d0 : filesystem) :
  let w' := snd (fetch_complete_historical_data
                   src start_date end_date granularity fuel (boot d0)) in
  disk w' = replay (history w') d0
  /\ forall k, (length (history w') <= k)%nat ->
               Scenario.crash_disk d0 w' k = disk w'.
Proof.
  cbv zeta. destruct (logged_fetch fuel (boot d0)) as (es & ->).
  rewrite history_step_of. cbn [history boot log rev app disk step_of].
  split; [reflexivity|].
  intros k Hk. unfold Scenario.crash_disk.
  rewrite history_step_of. cbn [history boot log rev app].
  now rewrite firstn_all2 by exact Hk.
Qed.

End Logged.

(** * The claims *)

(** C1.  Whatever the source answers, with or without a checkpoint, a frame
    returned by [fetch_complete_historical_data] is ascending by timestamp
    and holds no timestamp twice; and with a positive granularity the
    function does return or raise. *)
Theorem fetch_result_sorted_without_duplicates
        (src : source) (start_date end_date granularity : Z) (w : world) :
  (forall fuel df,
      fst (Coinbase.fetch_complete_historical_data
             src start_date end_date granularity fuel w) = Ok (Some df) ->
      Frame.ascending timestamp df)
  /\ (0 < granularity ->
      exists fuel0, forall fuel, (fuel0 <= fuel)%nat ->
        fst (Coinbase.fetch_complete_historical_data
               src start_date end_date granularity fuel w) <> OutOfFuel).
Proof.
  split.
  - intros fuel df H.
    apply fetch_returns_inv in H as (ls & w1 & _ & _ & _ & ->).
    apply sort_drop_duplicates_ascending.
  - intros Hg. now apply fetch_total.
Qed.

Lemma fetch_result_sorted_without_duplicates_witness :
  let run :=
    Coinbase.fetch_complete_historical_data
      (Scenario.overlapping_source Scenario.daily)
      Scenario.jan_2020 Scenario.jan_2021 86400 10 (boot no_files) in
  fst run = Ok (Some (Scenario.returned run))
  /\ length (Scenario.returned run) = 376%nat
  /\ Frame.ascending timestamp (Scenario.returned run).
Proof.
  cbv zeta. split; [vm_compute; reflexivity|]. split; [vm_compute; reflexivity|].
  apply (proj1 (fetch_result_sorted_without_duplicates
                  (Scenario.overlapping_source Scenario.daily)
                  Scenario.jan_2020 Scenario.jan_2021 86400 (boot no_files))
               10%nat).
  vm_compute. reflexivity.
Defined.

(** The frame [get_hourly_klines] returns is ascending as well. *)
Lemma klines_result_sorted (src : Binance.kline_source) (end_date start_date : Z)
      (fuel : nat) (df : list Binance.kline) (s : Binance.kstate) :
  Binance.get_hourly_klines src end_date fuel start_date = Some (Some df, s) ->
  Frame.ascending Binance.k_timestamp df.
Proof.
  unfold Binance.get_hourly_klines.
  destruct (Binance.klines_loop _ _ _ _) as [s'|]; [|discriminate].
  destruct (Binance.all_klines s') as [|k rows]; [discriminate|].
  intros H. injection H as <- _.
  apply (sort_drop_duplicates_ascending Binance.k_timestamp (k :: rows)).
Qed.

(** C5, as the code has it.  The range is not validated and no error is
    raised for it: with [end_date <= start_date], a granularity other than
    zero and no checkpoint file, the function returns [None] without sending
    a request or touching the disk. *)
Theorem empty_range_returns_nothing
        (src : source) (start_date end_date granularity : Z) (fuel : nat) (w : world) :
  end_date <= start_date ->
  granularity <> 0 ->
  disk w main_checkpoint = None ->
  Coinbase.fetch_complete_historical_data src start_date end_date granularity fuel w
  = (Ok None, w).
Proof.
  intros Hrange Hg Hck.
  unfold Coinbase.fetch_complete_historical_data.
  assert (Hloop : Coinbase.fetch_loop src start_date end_date granularity fuel w =
                  (Ok {| Coinbase.all_data := [];
                         Coinbase.current_start := start_date;
                         Coinbase.request_count := 0;
                         Coinbase.failed_requests := [] |}, w))
    by (rewrite fetch_loop_fresh by assumption; now apply main_loop_exit).
  rewrite (bind_ok _ _ _ _ _ Hloop). now apply finalize_nothing.
Qed.

Lemma empty_range_returns_nothing_witness :
  Scenario.jan_2020 <= Scenario.jan_2021
  /\ 86400 <> 0
  /\ disk (boot no_files) main_checkpoint = None
  /\ Coinbase.fetch_complete_historical_data
       (Scenario.series_source Scenario.daily)
       Scenario.jan_2021 Scenario.jan_2020 86400 10 (boot no_files)
     = (Ok None, boot no_files).
Proof.
  assert (H1 : Scenario.jan_2020 <= Scenario.jan_2021)
    by (vm_compute; intros H; discriminate H).
  assert (H2 : 86400 <> 0) by lia.
  split; [exact H1|]. split; [exact H2|]. split; [reflexivity|].
  exact (empty_range_returns_nothing
           (Scenario.series_source Scenario.daily)
           Scenario.jan_2021 Scenario.jan_2020 86400 10 (boot no_files)
           H1 H2 eq_refl).
Defined.

(** C5 as stated fails: a range that ends before it starts raises nothing. *)
Lemma empty_range_raises_no_error :
  ~ exists e : exn,
      fst (Coinbase.fetch_complete_historical_data
             (Scenario.series_source Scenario.daily)
             Scenario.jan_2021 Scenario.jan_2020 86400 10 (boot no_files))
      = Raise e.
Proof. intros [e H]. vm_compute in H. discriminate. Qed.




(** C8, as the code has it.  What the function returns is the frame alone:
    the de-duplicated, sorted concatenation of the accumulated frames.  The
    windows it gave up on are not part of the value; when a frame is
    returned and some window failed they are written, in order, to the
    report file. *)
Theorem returned_value_is_the_frame_alone
        (src : source) (start_date end_date granularity : Z) (fuel : nat)
        (w w1 : world) (ls : Coinbase.loop_state) :
  Coinbase.fetch_loop src start_date end_date granularity fuel w = (Ok ls, w1) ->
  Coinbase.all_data ls <> [] ->
  let run :=
    Coinbase.fetch_complete_historical_data src start_date end_date granularity fuel w in
  fst run = Ok (Some (Coinbase.combine (Coinbase.all_data ls)))
  /\ disk (snd run) fail_file =
     match Coinbase.failed_requests ls with
     | [] => disk w1 fail_file
     | fl => Some (map (fun fw => WindowLine (fst fw) (snd fw)) fl)
     end.
Proof.
  intros Hloop Hne run. subst run.
  rewrite (fetch_returns _ _ _ _ _ _ _ _ Hloop Hne).
  split; [reflexivity|]. apply finalize_disk.
Qed.

Lemma returned_value_is_the_frame_alone_witness :
  let loop :=
    Coinbase.fetch_loop (Scenario.down_after 1 Scenario.stuck_source)
                        Scenario.jan_2020 Scenario.jan_2021 86400 10 (boot no_files) in
  let run :=
    Coinbase.fetch_complete_historical_data
      (Scenario.down_after 1 Scenario.stuck_source)
      Scenario.jan_2020 Scenario.jan_2021 86400 10 (boot no_files) in
  fst run = Ok (Some [Scenario.flat Scenario.jan_2020])
  /\ disk (snd run) fail_file = Some [WindowLine 1603756800 1609459200].
Proof.
  cbv zeta.
  destruct (Coinbase.fetch_loop (Scenario.down_after 1 Scenario.stuck_source)
              Scenario.jan_2020 Scenario.jan_2021 86400 10 (boot no_files))
    as [r w1] eqn:Hloop.
  assert (Hr : r = Ok {| Coinbase.all_data := [[Scenario.flat Scenario.jan_2020]];
                         Coinbase.current_start := Scenario.jan_2021;
                         Coinbase.request_count := 2;
                         Coinbase.failed_requests := [(1603756800, 1609459200)] |})
    by (apply (f_equal fst) in Hloop; vm_compute in Hloop; now subst r).
  subst r.
  exact (returned_value_is_the_frame_alone _ _ _ _ _ _ _ _ Hloop
           ltac:(discriminate)).
Defined.

(** C8 as stated fails: two runs return the same value while one of them
    gave up on a window and the other did not. *)
Lemma failed_windows_not_in_returned_value :
  fst (Coinbase.fetch_complete_historical_data
         (Scenario.down_after 1 Scenario.stuck_source)
         Scenario.jan_2020 Scenario.jan_2021 86400 10 (boot no_files))
  = fst (Coinbase.fetch_complete_historical_data
           Scenario.stuck_source
           Scenario.jan_2020 Scenario.jan_2021 86400 10 (boot no_files))
  /\ Scenario.failed_of
       (Coinbase.fetch_loop (Scenario.down_after 1 Scenario.stuck_source)
          Scenario.jan_2020 Scenario.jan_2021 86400 10 (boot no_files))
     = [(1603756800, 1609459200)]
  /\ Scenario.failed_of
       (Coinbase.fetch_loop Scenario.stuck_source
          Scenario.jan_2020 Scenario.jan_2021 86400 10 (boot no_files))
     = [].
Proof. repeat split; vm_compute; reflexivity. Qed.

(** C10.  A run that returns a frame leaves no checkpoint file: whenever the
    loop ends with a frame accumulated, whether or not windows failed, the
    function returns a frame and the checkpoint path is absent from the disk
    afterwards. *)
Theorem checkpoint_removed_when_data_returned
        (src : source) (start_date end_date granularity : Z) (fuel : nat) (w : world) :
  let run :=
    Coinbase.fetch_complete_historical_data src start_date end_date granularity fuel w in
  (forall df, fst run = Ok (Some df) -> disk (snd run) main_checkpoint = None)
  /\ (forall ls w1,
         Coinbase.fetch_loop src start_date end_date granularity fuel w = (Ok ls, w1) ->
         Coinbase.all_data ls <> [] ->
         (exists df, fst run = Ok (Some df))
         /\ disk (snd run) main_checkpoint = None).
Proof.
  cbv zeta. split.
  - intros df H.
    apply fetch_returns_inv in H as (ls & w1 & _ & _ & -> & _).
    apply finalize_disk.
  - intros ls w1 Hloop Hne.
    rewrite (fetch_returns _ _ _ _ _ _ _ _ Hloop Hne).
    split; [eexists; reflexivity | apply finalize_disk].
Qed.

Lemma checkpoint_removed_when_data_returned_witness :
  let d0 := Scenario.with_checkpoint (Scenario.csv [Scenario.flat Scenario.jan_2020]) in
  let run :=
    Coinbase.fetch_complete_historical_data
      (Scenario.down_after 1 (Scenario.series_source Scenario.daily))
      Scenario.jan_2020 Scenario.jan_2021 86400 10 (boot d0) in
  d0 main_checkpoint = Some (Scenario.csv [Scenario.flat Scenario.jan_2020])
  /\ Scenario.failed_of
       (Coinbase.fetch_loop
          (Scenario.down_after 1 (Scenario.series_source Scenario.daily))
          Scenario.jan_2020 Scenario.jan_2021 86400 10 (boot d0))
     = [(1603843200, 1609459200)]
  /\ fst run = Ok (Some (Scenario.returned run))
  /\ disk (snd run) main_checkpoint = None.
Proof.
  cbv zeta. split; [reflexivity|]. split; [vm_compute; reflexivity|].
  assert (H : fst (Coinbase.fetch_complete_historical_data
                     (Scenario.down_after 1 (Scenario.series_source Scenario.daily))
                     Scenario.jan_2020 Scenario.jan_2021 86400 10
                     (boot (Scenario.with_checkpoint
                              (Scenario.csv [Scenario.flat Scenario.jan_2020]))))
              = Ok (Some (Scenario.returned
                            (Coinbase.fetch_complete_historical_data
                               (Scenario.down_after 1 (Scenario.series_source Scenario.daily))
                               Scenario.jan_2020 Scenario.jan_2021 86400 10
                               (boot (Scenario.with_checkpoint
                                        (Scenario.csv [Scenario.flat Scenario.jan_2020])))))))
    by (vm_compute; reflexivity).
  split; [exact H|].
  exact (proj1 (checkpoint_removed_when_data_returned _ _ _ _ _ _) _ H).
Defined.

(** ** One window *)

Section Window.

Import Coinbase.

Variable src : source.
Variables start_date end_date granularity : Z.
Variable name : granularity_name.
Hypothesis range_not_empty : total_seconds start_date end_date <> 0.
Hypothesis granularity_known : granularity_map granularity = Some name.

Variable ls : loop_state.
Variable w : world.

Let cs : Z := current_start ls.
Let ce : Z := window_end end_date granularity cs.
Let req : request := candles_params name cs ce granularity 300.
Let answer (i : nat) : option DataFrame := parse_response (src (i + issued w)%nat req).

(** The window succeeds at its attempt [k], counted from zero. *)
Lemma loop_body_succeeds (k : nat) (d : DataFrame) :
  (k < 3)%nat ->
  (forall i, (i < k)%nat -> answer i = None) ->
  answer k = Some d ->
  loop_body src start_date end_date granularity ls w =
  (Ok (advance end_date granularity ls (Some d)),
   step_of (Sleep 500 :: saved_events ls (Some d) ++ attempts_events req k) w).
Proof.
  intros Hk Hfail Hok.
  apply loop_body_from_retry; [exact range_not_empty | | ].
  - intros ls0 Hcs.
    rewrite (retry_loop_unrolled _ _ name) by exact granularity_known.
    cbv zeta. rewrite Hcs. fold cs ce req. fold (answer 0) (answer 1) (answer 2).
    rewrite with_failed_nil.
    destruct k as [|[|[|k]]]; [| | |lia].
    + now rewrite Hok.
    + rewrite (Hfail 0%nat) by lia. now rewrite Hok.
    + rewrite (Hfail 0%nat), (Hfail 1%nat) by lia. now rewrite Hok.
  - intros d' [= <-]. eapply parse_response_rows, Hok.
Qed.

(** The window is given up after three attempts. *)
Lemma loop_body_gives_up :
  (forall i, (i < 3)%nat -> answer i = None) ->
  loop_body src start_date end_date granularity ls w =
  (Ok (advance end_date granularity ls None),
   step_of (Sleep 500 :: attempts_events req 2) w).
Proof.
  intros Hfail.
  rewrite (loop_body_from_retry src start_date end_date granularity ls w None
             (attempts_events req 2)); [reflexivity | exact range_not_empty | | discriminate].
  intros ls0 Hcs.
  rewrite (retry_loop_unrolled _ _ name) by exact granularity_known.
  cbv zeta. rewrite Hcs. fold cs ce req. fold (answer 0) (answer 1) (answer 2).
  now rewrite (Hfail 0%nat), (Hfail 1%nat), (Hfail 2%nat) by lia.
Qed.

End Window.

Lemma requests_of_rev (es : list event) :
  requests_of (rev es) = rev (requests_of es).
Proof.
  induction es as [|e es IH]; [reflexivity|].
  simpl. rewrite requests_of_app, IH. destruct e; simpl; now rewrite ?app_nil_r.
Qed.

Lemma sleeps_of_app (es1 es2 : list event) :
  sleeps_of (es1 ++ es2) = sleeps_of es1 ++ sleeps_of es2.
Proof. unfold sleeps_of. apply flat_map_app. Qed.

Lemma requests_of_attempts (req : request) (k : nat) :
  requests_of (Coinbase.attempts_events req k) = repeat req (S k).
Proof.
  unfold Coinbase.attempts_events. simpl. f_equal.
  induction k as [|k IH]; simpl; congruence.
Qed.

Lemma rev_repeat {A} (x : A) (n : nat) : rev (repeat x n) = repeat x n.
Proof.
  induction n as [|n IH]; [reflexivity|].
  simpl. rewrite IH. clear IH.
  induction n as [|n IH]; simpl; congruence.
Qed.

Lemma checkpoint_events_quietly (frames : list DataFrame) :
  Forall (fun e => is_request e = false) (Coinbase.checkpoint_events frames).
Proof.
  unfold Coinbase.checkpoint_events, Coinbase.backup_events. apply Forall_app. split.
  - apply Forall_forall. intros e He.
    apply in_flat_map in He as (y & _ & [<-|[<-|[]]]); reflexivity.
  - repeat constructor.
Qed.

Lemma requests_of_saved_events (ls : Coinbase.loop_state) (df : option DataFrame) :
  requests_of (Coinbase.saved_events ls df) = [].
Proof.
  apply requests_of_none. unfold Coinbase.saved_events.
  destruct df; [|constructor].
  destruct (_ =? _); [apply checkpoint_events_quietly | constructor].
Qed.

(** The requests of an iteration: those of its attempts. *)
Lemma requests_of_iteration (ls : Coinbase.loop_state) (df : option DataFrame)
      (req : request) (k : nat) (w : world) :
  requests_of (history (step_of (Sleep 500 :: Coinbase.saved_events ls df
                                   ++ Coinbase.attempts_events req k) w))
  = requests_of (history w) ++ repeat req (S k).
Proof.
  rewrite history_step_of, requests_of_app, requests_of_rev. f_equal.
  change (Sleep 500 :: ?l) with ([Sleep 500] ++ l).
  rewrite !requests_of_app, requests_of_saved_events, requests_of_attempts.
  apply rev_repeat.
Qed.

(** C3, as the code has it.  [max_retries = 3] bounds the attempts on a
    window, not the retries.  When the first [k < 3] attempts fail and the
    next one succeeds, the window is requested [k + 1] times, its frame is
    appended and it is not added to [failed_requests]; when three attempts
    fail, the window is added to [failed_requests] after the third request,
    without a fourth.  Either way the loop moves on to the next window. *)
Theorem max_retries_bounds_attempts
        (src : source) (start_date end_date granularity : Z)
        (name : granularity_name) (ls : Coinbase.loop_state) (w : world) :
  Coinbase.total_seconds start_date end_date <> 0 ->
  Coinbase.granularity_map granularity = Some name ->
  let cs := Coinbase.current_start ls in
  let ce := Coinbase.window_end end_date granularity cs in
  let req := Coinbase.candles_params name cs ce granularity 300 in
  let answer (i : nat) := Coinbase.parse_response (src (i + issued w)%nat req) in
  let run := Coinbase.loop_body src start_date end_date granularity ls w in
  (forall k d,
      (k < 3)%nat ->
      (forall i, (i < k)%nat -> answer i = None) ->
      answer k = Some d ->
      exists ls',
        fst run = Ok ls'
        /\ requests_of (history (snd run)) = requests_of (history w) ++ repeat req (S k)
        /\ Coinbase.all_data ls' = Coinbase.all_data ls ++ [d]
        /\ Coinbase.failed_requests ls' = Coinbase.failed_requests ls
        /\ Coinbase.current_start ls' = ce)
  /\ ((forall i, (i < 3)%nat -> answer i = None) ->
      exists ls',
        fst run = Ok ls'
        /\ requests_of (history (snd run)) = requests_of (history w) ++ repeat req 3
        /\ Coinbase.all_data ls' = Coinbase.all_data ls
        /\ Coinbase.failed_requests ls' = Coinbase.failed_requests ls ++ [(cs, ce)]
        /\ Coinbase.current_start ls' = ce).
Proof.
  intros Hts Hg cs ce req answer run. subst run. split.
  - intros k d Hk Hfail Hok.
    rewrite (loop_body_succeeds src start_date end_date granularity name
               Hts Hg ls w k d Hk Hfail Hok).
    eexists. split; [reflexivity|]. split; [apply requests_of_iteration|].
    cbn. now rewrite app_nil_r.
  - intros Hfail.
    rewrite (loop_body_gives_up src start_date end_date granularity name
               Hts Hg ls w Hfail).
    eexists. split; [reflexivity|].
    split; [apply (requests_of_iteration ls None)|].
    cbn. now rewrite app_nil_r.
Qed.

Lemma max_retries_bounds_attempts_witness :
  let run :=
    Coinbase.loop_body
      (Scenario.failing_first 2 TransportError (Scenario.series_source Scenario.daily))
      Scenario.jan_2020 Scenario.feb_2020 86400
      (Scenario.fresh Scenario.jan_2020) (boot no_files) in
  exists ls',
    fst run = Ok ls'
    /\ requests_of (history (snd run)) = repeat Scenario.january_request 3
    /\ Coinbase.all_data ls' = [Scenario.january]
    /\ Coinbase.failed_requests ls' = []
    /\ Coinbase.current_start ls' = Scenario.feb_2020.
Proof.
  assert (Hts : Coinbase.total_seconds Scenario.jan_2020 Scenario.feb_2020 <> 0)
    by (vm_compute; discriminate).
  assert (Hg : Coinbase.granularity_map 86400 = Some ONE_DAY) by reflexivity.
  apply (proj1 (max_retries_bounds_attempts
                  (Scenario.failing_first 2 TransportError
                     (Scenario.series_source Scenario.daily))
                  Scenario.jan_2020 Scenario.feb_2020 86400 ONE_DAY
                  (Scenario.fresh Scenario.jan_2020) (boot no_files) Hts Hg)
               2%nat Scenario.january).
  - lia.
  - intros [|[|i]] Hi; [reflexivity | reflexivity | lia].
  - vm_compute. reflexivity.
Defined.

(** C3 as stated fails: a source that fails the only window three times and
    would answer the fourth request is asked three times; the window ends in
    [failed_requests] and none of its candles is returned. *)
Lemma three_failures_exhaust_the_window :
  let src :=
    Scenario.failing_first 3 TransportError (Scenario.series_source Scenario.daily) in
  let loop :=
    Coinbase.fetch_loop src Scenario.jan_2020 Scenario.feb_2020 86400 10 (boot no_files) in
  Coinbase.parse_response (src 3%nat Scenario.january_request) = Some Scenario.january
  /\ requests_of (history (snd loop)) = repeat Scenario.january_request 3
  /\ Scenario.failed_of loop = [(Scenario.jan_2020, Scenario.feb_2020)]
  /\ fst (Coinbase.fetch_complete_historical_data
            src Scenario.jan_2020 Scenario.feb_2020 86400 10 (boot no_files))
     = Ok None.
Proof. cbv zeta. repeat split; vm_compute; reflexivity. Qed.

(** ** Rate limits *)

Lemma concat_repeat_comm {A} (x : list A) (n : nat) :
  List.concat (repeat x n) ++ x = x ++ List.concat (repeat x n).
Proof.
  induction n as [|n IH]; simpl; [now rewrite app_nil_r|].
  now rewrite <- app_assoc, IH.
Qed.

(** In [get_hourly_klines], [n] answers 429 in a row cost [n] requests and
    [n] minutes of sleep and leave the loop where it was. *)
Lemma klines_loop_rate_limited (src : Binance.kline_source) (end_date : Z)
      (n fuel : nat) (s : Binance.kstate) :
  Binance.current_start s < end_date ->
  (forall i, (i < n)%nat ->
     exists json,
       src (i + Binance.sent s)%nat
           {| Binance.startTime := Binance.current_start s; Binance.limit := 1000 |}
       = Binance.Status 429 json) ->
  Binance.klines_loop src end_date (n + fuel) s =
  Binance.klines_loop src end_date fuel
    {| Binance.all_klines := Binance.all_klines s;
       Binance.current_start := Binance.current_start s;
       Binance.sent := (n + Binance.sent s)%nat;
       Binance.trace :=
         Binance.rate_limit_trace
           {| Binance.startTime := Binance.current_start s; Binance.limit := 1000 |} n
         ++ Binance.trace s |}.
Proof.
  intros Hlt. revert s Hlt.
  induction n as [|n IH]; intros s Hlt Hsrc.
  - destruct s; reflexivity.
  - cbn [plus Binance.klines_loop].
    apply Z.ltb_lt in Hlt as Hlt'. rewrite Hlt'.
    destruct (Hsrc 0%nat ltac:(lia)) as (json & H0). cbn [plus] in H0.
    unfold Binance.klines_body. rewrite H0.
    change (429 =? 200) with false. change (429 =? 429) with true. cbv iota.
    rewrite IH; cbn [Binance.current_start Binance.sent Binance.trace Binance.all_klines].
    + f_equal. f_equal; [lia|].
      unfold Binance.rate_limit_trace.
      change (Binance.Wait 60000 :: Binance.Get ?r :: ?t)
        with ([Binance.Wait 60000; Binance.Get r] ++ t).
      rewrite app_assoc, concat_repeat_comm. reflexivity.
    + exact Hlt.
    + intros i Hi. destruct (Hsrc (S i) ltac:(lia)) as (json' & H').
      exists json'. rewrite <- H'. f_equal. lia.
Qed.

Lemma parse_response_429 (b : body) : Coinbase.parse_response (Http 429 b) = None.
Proof. reflexivity. Qed.

(** C4, as the code has it.  The two fetchers differ.  In
    [get_hourly_klines] an answer 429 is followed by a sleep of sixty
    seconds and the same request again, for as long as the source answers
    429: nothing is counted.  In the Coinbase bulk fetch [fetch_candles]
    turns a 429 into a failed attempt like every other 4xx or 5xx status:
    it is followed by the two-second sleep and counts against the three
    attempts of the window. *)
Theorem rate_limit_handling :
  (forall (src : Binance.kline_source) (end_date : Z) (n fuel : nat) (s : Binance.kstate),
      Binance.current_start s < end_date ->
      let r := {| Binance.startTime := Binance.current_start s;
                  Binance.limit := 1000 |} in
      (forall i, (i < n)%nat ->
         exists json, src (i + Binance.sent s)%nat r = Binance.Status 429 json) ->
      Binance.klines_loop src end_date (n + fuel) s =
      Binance.klines_loop src end_date fuel
        {| Binance.all_klines := Binance.all_klines s;
           Binance.current_start := Binance.current_start s;
           Binance.sent := (n + Binance.sent s)%nat;
           Binance.trace := Binance.rate_limit_trace r n ++ Binance.trace s |})
  /\ (forall (src : source) (start_date end_date granularity : Z)
             (name : granularity_name) (ls : Coinbase.loop_state) (w : world),
         Coinbase.total_seconds start_date end_date <> 0 ->
         Coinbase.granularity_map granularity = Some name ->
         let cs := Coinbase.current_start ls in
         let ce := Coinbase.window_end end_date granularity cs in
         let req := Coinbase.candles_params name cs ce granularity 300 in
         let run := Coinbase.loop_body src start_date end_date granularity ls w in
         (forall i, (i < 3)%nat ->
            exists b, src (i + issued w)%nat req = Http 429 b) ->
         exists ls',
           fst run = Ok ls'
           /\ requests_of (history (snd run)) = requests_of (history w) ++ repeat req 3
           /\ sleeps_of (history (snd run)) = sleeps_of (history w) ++ [2000; 2000; 500]
           /\ Coinbase.all_data ls' = Coinbase.all_data ls
           /\ Coinbase.failed_requests ls' = Coinbase.failed_requests ls ++ [(cs, ce)]).
Proof.
  split.
  - intros src end_date n fuel s Hlt r Hsrc. now apply klines_loop_rate_limited.
  - intros src start_date end_date granularity name ls w Hts Hg cs ce req run Hsrc.
    subst run.
    rewrite (loop_body_gives_up src start_date end_date granularity name Hts Hg ls w).
    + eexists. split; [reflexivity|].
      split; [apply (requests_of_iteration ls None)|].
      split; [|cbn; now rewrite app_nil_r].
      cbn [snd]. rewrite history_step_of, sleeps_of_app. reflexivity.
    + intros i Hi. destruct (Hsrc i Hi) as (b & Hb).
      fold cs ce req. now rewrite Hb.
Qed.

Lemma rate_limit_handling_witness :
  Binance.klines_loop (Scenario.throttled 5) 3600000 (5 + 1) (Scenario.kfresh 0)
  = Binance.klines_loop (Scenario.throttled 5) 3600000 1
      {| Binance.all_klines := [];
         Binance.current_start := 0;
         Binance.sent := 5%nat;
         Binance.trace :=
           Binance.rate_limit_trace
             {| Binance.startTime := 0; Binance.limit := 1000 |} 5 |}.
Proof.
  apply (proj1 rate_limit_handling (Scenario.throttled 5) 3600000 5%nat 1%nat
               (Scenario.kfresh 0)).
  - reflexivity.
  - intros i Hi. exists None. cbn [Scenario.kfresh Binance.sent Binance.current_start].
    unfold Scenario.throttled.
    replace (i + 0 <? 5)%nat with true; [reflexivity|].
    symmetry. apply Nat.ltb_lt. lia.
Defined.

(** C4 as stated fails for the bulk fetch: three answers 429 use up the
    attempts of the window, which ends in [failed_requests] although the
    source would have answered the fourth request. *)
Lemma rate_limit_counts_against_attempts :
  let src :=
    Scenario.failing_first 3 (Http 429 NoCandlesKey)
                           (Scenario.series_source Scenario.daily) in
  let loop :=
    Coinbase.fetch_loop src Scenario.jan_2020 Scenario.feb_2020 86400 10 (boot no_files) in
  Coinbase.parse_response (src 3%nat Scenario.january_request) = Some Scenario.january
  /\ requests_of (history (snd loop)) = repeat Scenario.january_request 3
  /\ sleeps_of (history (snd loop)) = [2000; 2000; 500]
  /\ Scenario.failed_of loop = [(Scenario.jan_2020, Scenario.feb_2020)].
Proof. cbv zeta. repeat split; vm_compute; reflexivity. Qed.


(** ** Checkpoint writes *)






(** ** Resuming from a checkpoint *)

Lemma granularity_map_pos (granularity : Z) (name : granularity_name) :
  Coinbase.granularity_map granularity = Some name -> 0 < granularity.
Proof.
  unfold Coinbase.granularity_map.
  repeat match goal with
         | |- context [?g =? ?c] =>
             let E := fresh in destruct (g =? c) eqn:E;
             [apply Z.eqb_eq in E; lia|]
         end.
  discriminate.
Qed.





Section Series.

Import Coinbase.

(** The source serves the series [D], whose candles have distinct
    timestamps. *)
Variable D : DataFrame.
Variables start_date end_date granularity : Z.
Variable name : granularity_name.
Hypothesis granularity_known : granularity_map granularity = Some name.
Hypothesis range_not_empty : total_seconds start_date end_date <> 0.

Let src : source := Scenario.series_source D.




End Series.









(** * Further properties of the code *)

(** ** The accumulator: which row is kept, and checkpoints *)

Section FirstRow.

Context {A : Type} (key : A -> Z).

(** The first row of [df] whose key is [k]. *)
Local Abbreviation first_row k df := (find (fun d : A => key d =? k) df).

Lemma find_filter_other (k j : Z) (df : list A) :
  k <> j ->
  first_row k (filter (fun d => negb (key d =? j)) df) = first_row k df.
Proof.
  intros Hkj. induction df as [|c df IH]; simpl; [reflexivity|].
  destruct (key c =? j) eqn:Ej; simpl.
  - apply Z.eqb_eq in Ej.
    destruct (key c =? k) eqn:Ek; [apply Z.eqb_eq in Ek; congruence | exact IH].
  - destruct (key c =? k); [reflexivity | exact IH].
Qed.

(** [drop_duplicates] does not change which row comes first for a key. *)
Lemma first_row_drop_duplicates (k : Z) (df : list A) :
  first_row k (Frame.drop_duplicates key df) = first_row k df.
Proof.
  induction df as [|c df IH]; simpl; [reflexivity|].
  destruct (key c =? k) eqn:Ek; [reflexivity|].
  rewrite find_filter_other; [exact IH|].
  apply Z.eqb_neq in Ek. congruence.
Qed.

Lemma first_row_key (k : Z) (df : list A) (x : A) :
  first_row k df = Some x -> In x df /\ key x = k.
Proof.
  intros H. apply find_some in H as [Hin Hk]. now apply Z.eqb_eq in Hk.
Qed.

(** Where keys are distinct, the first row of a key is the row of that
    key. *)
Lemma first_row_distinct (df : list A) (x : A) :
  NoDup (map key df) -> In x df -> first_row (key x) df = Some x.
Proof.
  induction df as [|c df IH]; simpl; [tauto|].
  intros Hnd [->|Hx]; [now rewrite Z.eqb_refl|].
  inversion Hnd as [|? ? Hc Hnd']; subst.
  destruct (key c =? key x) eqn:E; [|now apply IH].
  apply Z.eqb_eq in E. exfalso. apply Hc. rewrite E. now apply in_map.
Qed.

Lemma first_row_none (k : Z) (df : list A) :
  first_row k df = None <-> ~ In k (map key df).
Proof.
  split.
  - intros H Hin. apply in_map_iff in Hin as (x & Hk & Hx).
    apply (find_none _ _ H) in Hx. apply Z.eqb_neq in Hx. congruence.
  - intros H. destruct (first_row k df) as [x|] eqn:E; [|reflexivity].
    apply first_row_key in E as [Hin Hk]. exfalso. apply H. rewrite <- Hk.
    now apply in_map.
Qed.

(** In a frame with distinct keys the first row of a key only depends on
    the rows, not on their order. *)
Lemma first_row_perm (k : Z) (l1 l2 : list A) :
  NoDup (map key l1) -> Permutation l1 l2 ->
  first_row k l1 = first_row k l2.
Proof.
  intros Hnd Hperm.
  assert (Hnd2 : NoDup (map key l2))
    by (eapply Permutation_NoDup; [apply Permutation_map, Hperm | exact Hnd]).
  destruct (first_row k l1) as [x|] eqn:E1.
  - apply first_row_key in E1 as [Hin <-]. symmetry.
    apply first_row_distinct; [exact Hnd2|]. eapply Permutation_in; eauto.
  - symmetry. apply first_row_none. apply first_row_none in E1.
    intros Hin. apply E1. eapply Permutation_in; [|exact Hin].
    apply Permutation_map. now symmetry.
Qed.

Lemma first_row_app (k : Z) (l1 l2 : list A) :
  first_row k (l1 ++ l2) =
  match first_row k l1 with Some x => Some x | None => first_row k l2 end.
Proof.
  induction l1 as [|c l1 IH]; simpl; [reflexivity|].
  destruct (key c =? k); [reflexivity | exact IH].
Qed.

(** The rows of a de-duplicated frame are the first rows of their keys. *)
Lemma drop_duplicates_first (df : list A) (x : A) :
  In x (Frame.drop_duplicates key df) <-> first_row (key x) df = Some x.
Proof.
  rewrite <- first_row_drop_duplicates. split.
  - apply first_row_distinct, drop_duplicates_NoDup.
  - intros H. now apply first_row_key in H.
Qed.

(** Sorting the de-duplicated frame keeps the first row of every key. *)
Lemma first_row_sorted (k : Z) (df : list A) :
  first_row k (Frame.sort_values key (Frame.drop_duplicates key df)) = first_row k df.
Proof.
  rewrite <- (first_row_drop_duplicates k df).
  apply first_row_perm.
  - eapply Permutation_NoDup; [|apply (drop_duplicates_NoDup key df)].
    apply Permutation_map. symmetry. apply sort_values_perm.
  - apply sort_values_perm.
Qed.

End FirstRow.

(** X1.  For every timestamp the combined frame keeps the row that comes
    first in the order of accumulation (the checkpoint, then the windows in
    the order fetched): a candle is in the combined frame exactly when it is
    the first row of its timestamp in the concatenation. *)
Theorem combine_keeps_first_row (frames : list DataFrame) (c : candle) :
  In c (Coinbase.combine frames) <->
  find (fun d => timestamp d =? timestamp c) (Frame.concat frames) = Some c.
Proof.
  unfold Coinbase.combine. rewrite sort_values_In. apply drop_duplicates_first.
Qed.

(** X2.  A checkpoint is transparent: replacing the frames accumulated so
    far by their combined frame, which is what a checkpoint stores and a
    resumed run loads, does not change the frame that is returned however
    the run goes on. *)
Theorem checkpoint_is_transparent (frames more : list DataFrame) :
  Coinbase.combine (Coinbase.combine frames :: more)
  = Coinbase.combine (frames ++ more).
Proof.
  apply (sorted_frame_unique timestamp);
    try apply sort_drop_duplicates_ascending.
  intros c. unfold Coinbase.combine at 1 3.
  rewrite !sort_values_In, !drop_duplicates_first.
  unfold Frame.concat. cbn [List.concat]. rewrite concat_app, !first_row_app.
  unfold Coinbase.combine, Frame.concat. now rewrite first_row_sorted.
Qed.

(** ** A rule for the events of a run *)

Section RunRule.

Import Coinbase.

Variable src : source.
Variables start_date end_date granularity : Z.

Local Abbreviation retry_loop := (retry_loop src granularity).
Local Abbreviation loop_body := (loop_body src start_date end_date granularity).
Local Abbreviation main_loop := (main_loop src start_date end_date granularity).
Local Abbreviation window_end := (window_end end_date granularity).
Local Abbreviation advance := (advance end_date granularity).
Local Abbreviation attempted := (attempted src end_date granularity).
Local Abbreviation retry_shape := (Trace.retry_shape end_date granularity).

(** The retry loop of a window, with the events it leaves. *)
Lemma retry_loop_events (ls : loop_state) (w : world) :
  exists df es,
    (forall ls0,
        current_start ls0 = current_start ls ->
        retry_loop (Z.to_nat max_retries) (window_end (current_start ls)) 0 None ls0 w =
        (Ok (df, with_failed ls0
                   match df with
                   | Some _ => []
                   | None => [(current_start ls, window_end (current_start ls))]
                   end),
         step_of es w))
    /\ attempted ls w df es
    /\ retry_shape (current_start ls) es.
Proof.
  unfold Coinbase.attempted, Trace.retry_shape.
  destruct (granularity_map granularity) as [name|] eqn:Hg.
  - set (req := candles_params name (current_start ls)
                  (window_end (current_start ls)) granularity 300).
    assert (Hrun : forall ls0,
               current_start ls0 = current_start ls ->
               retry_loop (Z.to_nat max_retries) (window_end (current_start ls))
                          0 None ls0 w = _)
      by (intros ls0 Hcs; rewrite (retry_loop_unrolled _ _ name) by exact Hg;
          cbv zeta; rewrite Hcs; fold req; cbn [plus]; reflexivity).
    destruct (parse_response (src (issued w) req)) as [d|] eqn:E0;
      [|destruct (parse_response (src (S (issued w)) req)) as [d|] eqn:E1;
        [|destruct (parse_response (src (S (S (issued w))) req)) as [d|] eqn:E2]].
    1-3: exists (Some d); eexists; split;
      [intros ls0 Hcs; rewrite with_failed_nil; apply (Hrun ls0 Hcs)|].
    4: exists None; eexists; split; [intros ls0 Hcs; apply (Hrun ls0 Hcs)|].
    all: split;
      [|first [ exists 0%nat; split; [lia|reflexivity]
              | exists 1%nat; split; [lia|reflexivity]
              | exists 2%nat; split; [lia|reflexivity] ]].
    all: split; [repeat constructor|].
    all: split; [simpl; lia|].
    all: split; [intros d' [= <-] || intros d' [=] | intros [=] || intros _].
    all: try (split; [eapply parse_response_rows; eassumption|]).
    all: try (intros name' [= <-]; assumption).
    + exists (issued w), name. auto.
    + exists (S (issued w)), name. auto.
    + exists (S (S (issued w))), name. auto.
  - exists None; eexists. split; [|split; [|reflexivity]].
    + intros ls0 Hcs. rewrite retry_loop_unrolled_rejected by exact Hg.
      rewrite Hcs. reflexivity.
    + split; [repeat constructor|]. split; [simpl; lia|].
      split; [intros d' [=] | intros _ name' [=]].
Qed.

(** One iteration of the main loop, with the events it leaves. *)
Lemma loop_body_events (ls : loop_state) (w : world) :
  total_seconds start_date end_date <> 0 ->
  exists df es,
    attempted ls w df es
    /\ retry_shape (current_start ls) es
    /\ loop_body ls w =
       (Ok (advance ls df),
        step_of (Sleep 500 :: saved_events ls df ++ es) w).
Proof.
  intros Hts.
  destruct (retry_loop_events ls w) as (df & es & Hrun & Hatt & Hshape).
  exists df, es. split; [exact Hatt|]. split; [exact Hshape|].
  apply loop_body_from_retry; [exact Hts | exact Hrun |].
  intros d Hd. destruct Hatt as (_ & _ & Hrows & _).
  now destruct (Hrows d Hd).
Qed.

(** The rule.  [I] relates the loop variables to the events since the loop
    began, newest first.  If every iteration keeps it, it holds of what the
    loop leaves, whether the loop ends, raises or runs out of fuel. *)
Lemma main_loop_run (I : loop_state -> list event -> Prop) :
  (forall ls es w df es_r,
      I ls es ->
      current_start ls < end_date ->
      total_seconds start_date end_date <> 0 ->
      attempted ls w df es_r ->
      retry_shape (current_start ls) es_r ->
      I (advance ls df) ((Sleep 500 :: saved_events ls df ++ es_r) ++ es)) ->
  forall fuel ls w es0,
    I ls es0 ->
    exists ls' es,
      snd (main_loop fuel ls w) = step_of es w
      /\ I ls' (es ++ es0)
      /\ forall ls'',
          fst (main_loop fuel ls w) = Ok ls'' ->
          ls'' = ls' /\ end_date <= current_start ls'.
Proof.
  intros Hstep. induction fuel as [|fuel IH]; intros ls w es0 HI.
  - exists ls, []. rewrite step_of_nil. simpl.
    destruct (current_start ls <? end_date) eqn:E.
    + split; [reflexivity|]. split; [exact HI|]. intros ls'' [=].
    + split; [reflexivity|]. split; [exact HI|]. intros ls'' [= <-].
      split; [reflexivity | apply Z.ltb_ge, E].
  - destruct (Z_lt_le_dec (current_start ls) end_date) as [Hlt|Hge].
    + rewrite main_loop_iterate by exact Hlt.
      destruct (Z.eq_dec (total_seconds start_date end_date) 0) as [Hts|Hts].
      * rewrite (bind_raise _ _ _ _ _ (loop_body_empty_range _ _ _ _ ls w Hts)).
        exists ls, []. rewrite step_of_nil.
        split; [reflexivity|]. split; [exact HI|]. intros ls'' [=].
      * destruct (loop_body_events ls w Hts) as (df & es & Hatt & Hshape & Hbody).
        rewrite (bind_ok _ _ _ _ _ Hbody).
        destruct (IH (advance ls df)
                     (step_of (Sleep 500 :: saved_events ls df ++ es) w)
                     ((Sleep 500 :: saved_events ls df ++ es) ++ es0))
          as (ls' & es' & Hsnd & HI' & Hfst).
        { eapply Hstep; eauto. }
        exists ls', (es' ++ Sleep 500 :: saved_events ls df ++ es).
        rewrite Hsnd, step_of_step_of, <- app_assoc.
        split; [reflexivity|]. split; [exact HI' | exact Hfst].
    + rewrite main_loop_exit by exact Hge.
      exists ls, []. rewrite step_of_nil.
      split; [reflexivity|]. split; [exact HI|]. intros ls'' [= <-].
      split; [reflexivity | exact Hge].
Qed.

End RunRule.

Section FetchRule.

Import Coinbase.

Variable src : source.
Variables start_date end_date granularity : Z.

Local Abbreviation fetch_loop := (fetch_loop src start_date end_date granularity).
Local Abbreviation fetch_complete_historical_data :=
  (fetch_complete_historical_data src start_date end_date granularity).

Section Rule.

Variable I : loop_state -> list event -> Prop.

Hypothesis I_step :
  forall ls es w df es_r,
    I ls es ->
    current_start ls < end_date ->
    total_seconds start_date end_date <> 0 ->
    attempted src end_date granularity ls w df es_r ->
    Trace.retry_shape end_date granularity (current_start ls) es_r ->
    I (advance end_date granularity ls df)
      ((Sleep 500 :: saved_events ls df ++ es_r) ++ es).

Variable w : world.

Hypothesis I_fresh :
  disk w main_checkpoint = None -> I (Scenario.fresh start_date) [].

Hypothesis I_resumed :
  forall f df,
    disk w main_checkpoint = Some f -> parse_csv f = Ok df -> I (Trace.resumed granularity df) [].

(** The loop of a run: either it raises before its first iteration, or it
    leaves variables and events that [I] relates. *)
Lemma fetch_loop_run (fuel : nat) :
  (snd (fetch_loop fuel w) = w /\ exists e, fst (fetch_loop fuel w) = Raise e)
  \/ exists ls es,
      snd (fetch_loop fuel w) = step_of es w
      /\ I ls es
      /\ forall ls', fst (fetch_loop fuel w) = Ok ls' -> ls' = ls.
Proof.
  destruct (Z.eq_dec granularity 0) as [Hg|Hg].
  { left. unfold Coinbase.fetch_loop. subst granularity. simpl. eauto. }
  rewrite fetch_loop_eq by exact Hg.
  destruct (disk w main_checkpoint) as [f|] eqn:Hck.
  - pose proof (load_checkpoint_present start_date granularity w f Hck) as Hload.
    destruct (parse_csv f) as [df|e|] eqn:Hparse.
    + rewrite (bind_ok _ _ _ _ _ Hload). cbn [fst snd run_loop].
      pose proof (I_resumed f df eq_refl Hparse) as Hres. unfold Trace.resumed in Hres.
      right. destruct (Frame.max_key timestamp df) as [t|]; cbn [option_map].
      * destruct (main_loop_run src start_date end_date granularity I I_step fuel
                    {| all_data := [df]; current_start := t + granularity;
                       request_count := 0; failed_requests := [] |}
                    w [] Hres) as (ls & es & Hsnd & HI & Hfst).
        rewrite app_nil_r in HI. exists ls, es. split; [exact Hsnd|].
        split; [exact HI | intros ls' H; now apply Hfst].
      * eexists; exists []. cbn [ret fst snd]. rewrite step_of_nil.
        split; [reflexivity|]. split; [exact Hres|]. now intros ls' [= <-].
    + left. rewrite (bind_raise _ _ _ _ _ Hload). simpl. eauto.
    + now apply parse_csv_total in Hparse.
  - rewrite (bind_ok _ _ _ _ _ (load_checkpoint_absent start_date granularity w Hck)).
    cbn [fst snd run_loop]. right.
    destruct (main_loop_run src start_date end_date granularity I I_step fuel
                (Scenario.fresh start_date) w [] (I_fresh eq_refl))
      as (ls & es & Hsnd & HI & Hfst).
    rewrite app_nil_r in HI. exists ls, es. split; [exact Hsnd|].
    split; [exact HI | intros ls' H; now apply Hfst].
Qed.

(** The whole run: after the loop only files are written, and a frame that
    is returned is the combined accumulator. *)
Lemma fetch_run (fuel : nat) :
  (snd (fetch_complete_historical_data fuel w) = w
   /\ exists e, fst (fetch_complete_historical_data fuel w) = Raise e)
  \/ exists ls es fin,
      snd (fetch_complete_historical_data fuel w) = step_of (fin ++ es) w
      /\ I ls es
      /\ Forall Trace.file_event fin
      /\ forall df,
          fst (fetch_complete_historical_data fuel w) = Ok (Some df) ->
          df = combine (all_data ls) /\ all_data ls <> [].
Proof.
  unfold Coinbase.fetch_complete_historical_data, bind.
  destruct (fetch_loop_run fuel) as [(Hsnd & e & Hfst)|(ls & es & Hsnd & HI & Hfst)].
  - left. destruct (fetch_loop fuel w) as [r w1]. simpl in Hsnd, Hfst.
    subst r w1. split; [reflexivity | exists e; reflexivity].
  - right. exists ls, es.
    destruct (fetch_loop fuel w) as [[ls'|e|] w1]; simpl in Hsnd; subst w1.
    + rewrite (Hfst ls' eq_refl).
      destruct (all_data ls) as [|d frames] eqn:Hall.
      * rewrite finalize_nothing by exact Hall.
        exists []. cbn [app fst snd].
        split; [reflexivity|]. split; [exact HI|]. split; [constructor|].
        intros df [=].
      * rewrite finalize_step by congruence.
        exists (rev (finalize_history ls (step_of es w))).
        rewrite step_of_step_of. cbn [fst snd].
        split; [reflexivity|]. split; [exact HI|]. split.
        -- apply Forall_rev. unfold finalize_history. apply Forall_app. split.
           ++ destruct (failed_requests ls); constructor; [exact Logic.I|].
              apply Forall_forall. intros ev Hev.
              apply in_map_iff in Hev as (fw & <- & _). exact Logic.I.
           ++ destruct (disk (step_of es w) main_checkpoint);
                [constructor; [exact Logic.I | constructor] | constructor].
        -- intros df [= <-]. rewrite Hall. split; [reflexivity | discriminate].
    + exists []. cbn [app fst snd].
      split; [reflexivity|]. split; [exact HI|]. split; [constructor|].
      intros df [=].
    + exists []. cbn [app fst snd].
      split; [reflexivity|]. split; [exact HI|]. split; [constructor|].
      intros df [=].
Qed.

End Rule.

End FetchRule.

(** ** Pacing of the requests *)

Lemma slept_after_app (s : Z) (es1 es2 : list event) :
  Trace.slept_after s (es1 ++ es2) = Trace.slept_after (Trace.slept_after s es1) es2.
Proof.
  revert s. induction es1 as [|e es1 IH]; intros s; [reflexivity|].
  destruct e; simpl; apply IH.
Qed.

Lemma paced_app (s : Z) (es1 es2 : list event) :
  Trace.paced s (es1 ++ es2) =
  Trace.paced s es1 && Trace.paced (Trace.slept_after s es1) es2.
Proof.
  revert s. induction es1 as [|e es1 IH]; intros s; [reflexivity|].
  destruct e; simpl; rewrite ?IH; [apply andb_assoc | reflexivity..].
Qed.

Lemma paced_files (s : Z) (es : list event) :
  Forall Trace.file_event es ->
  Trace.paced s es = true /\ Trace.slept_after s es = s.
Proof.
  induction 1 as [|e es He _ IH]; [auto|].
  destruct e; simpl in *; try contradiction; exact IH.
Qed.

Lemma backup_events_files (temp_df : DataFrame) :
  Forall Trace.file_event (Coinbase.backup_events temp_df).
Proof.
  apply Forall_forall. intros e He.
  apply in_flat_map in He as (y & _ & [<-|[<-|[]]]); exact I.
Qed.

Lemma saved_events_files (ls : Coinbase.loop_state) (df : option DataFrame) :
  Forall Trace.file_event (Coinbase.saved_events ls df).
Proof.
  unfold Coinbase.saved_events. destruct df; [|constructor].
  destruct (_ =? _); [|constructor].
  unfold Coinbase.checkpoint_events. apply Forall_app. split.
  - apply backup_events_files.
  - repeat constructor.
Qed.

(** After the retry loop of a window that began with half a second slept,
    the requests were paced. *)
Lemma retry_shape_paced (end_date granularity cs s : Z) (es : list event) :
  500 <= s ->
  Trace.retry_shape end_date granularity cs es ->
  Trace.paced s (rev es) = true /\ 0 <= Trace.slept_after s (rev es).
Proof.
  intros Hs. unfold Trace.retry_shape.
  apply Z.leb_le in Hs as Hs'.
  destruct (Coinbase.granularity_map granularity) as [name|].
  - intros (k & Hk & ->).
    destruct k as [|[|[|k]]]; [| | |lia]; cbn; rewrite Hs'; split; reflexivity || lia.
  - intros ->. cbn. split; [reflexivity | lia].
Qed.

(** The events of one iteration keep the pacing and end with half a second
    of sleep. *)
Lemma iteration_paced (end_date granularity : Z) (ls : Coinbase.loop_state)
      (df : option DataFrame) (es_r : list event) (s : Z) :
  500 <= s ->
  Trace.retry_shape end_date granularity (Coinbase.current_start ls) es_r ->
  Trace.paced s (rev (Sleep 500 :: Coinbase.saved_events ls df ++ es_r)) = true
  /\ 500 <= Trace.slept_after s (rev (Sleep 500 :: Coinbase.saved_events ls df ++ es_r)).
Proof.
  intros Hs Hshape.
  destruct (retry_shape_paced _ _ _ s es_r Hs Hshape) as [Hp Hn].
  change (Sleep 500 :: ?l) with ([Sleep 500] ++ l).
  rewrite !rev_app_distr. cbn [rev app].
  rewrite !paced_app, !slept_after_app, Hp.
  destruct (paced_files (Trace.slept_after s (rev es_r))
              (rev (Coinbase.saved_events ls df)))
    as [Hp' Hs'']; [apply Forall_rev, saved_events_files|].
  rewrite Hp', Hs''. cbn. split; [reflexivity | lia].
Qed.

(** X3.  In every run of the bulk fetch, however it ends, each request is
    sent after at least half a second of sleep since the request before it:
    two seconds between the attempts on a window, half a second between
    windows. *)
Theorem requests_are_paced
        (src : source) (start_date end_date granularity : Z) (fuel : nat)
        (d0 : filesystem) :
  Trace.paced 500
    (history (snd (Coinbase.fetch_complete_historical_data
                     src start_date end_date granularity fuel (boot d0))))
  = true.
Proof.
  destruct (fetch_run src start_date end_date granularity
              (fun _ es => Trace.paced 500 (rev es) = true
                           /\ 500 <= Trace.slept_after 500 (rev es)))
    with (w := boot d0) (fuel := fuel)
    as [(Hsnd & _)|(ls & es & fin & Hsnd & (Hp & Hs) & Hfin & _)].
  - intros ls es w df es_r (Hp & Hs) _ _ _ Hshape.
    rewrite rev_app_distr, paced_app, slept_after_app, Hp.
    now apply iteration_paced with (end_date := end_date) (granularity := granularity).
  - intros _. cbn. split; [reflexivity | lia].
  - intros f df _ _. cbn. split; [reflexivity | lia].
  - rewrite Hsnd. reflexivity.
  - rewrite Hsnd, history_step_of. cbn [history boot log rev app].
    rewrite rev_app_distr, paced_app, Hp.
    now apply paced_files, Forall_rev.
Qed.

(** ** The requests and the windows of a run *)

Lemma requests_of_retry_shape (end_date granularity cs : Z) (es : list event)
      (r : request) :
  Trace.retry_shape end_date granularity cs es ->
  In r (requests_of es) ->
  exists name,
    Coinbase.granularity_map granularity = Some name
    /\ r = Coinbase.candles_params name cs
             (Coinbase.window_end end_date granularity cs) granularity 300.
Proof.
  unfold Trace.retry_shape.
  destruct (Coinbase.granularity_map granularity) as [name|].
  - intros (k & _ & ->). rewrite requests_of_attempts.
    intros Hin. apply repeat_spec in Hin. now exists name.
  - intros ->. intros [].
Qed.

Lemma requests_of_iteration_events (ls : Coinbase.loop_state) (df : option DataFrame)
      (es_r : list event) :
  requests_of (Sleep 500 :: Coinbase.saved_events ls df ++ es_r) = requests_of es_r.
Proof.
  change (Sleep 500 :: ?l) with ([Sleep 500] ++ l).
  now rewrite !requests_of_app, requests_of_saved_events.
Qed.

Lemma requests_of_files (es : list event) :
  Forall Trace.file_event es -> requests_of es = [].
Proof.
  intros H. apply requests_of_none. eapply Forall_impl; [|exact H].
  intros [] He; simpl in *; try contradiction; reflexivity.
Qed.

(** The request for a window of the loop is within the limits. *)
Lemma window_request_within_limits (end_date granularity cs : Z)
      (name : granularity_name) :
  Coinbase.granularity_map granularity = Some name ->
  cs < end_date ->
  Trace.within_limits end_date granularity
    (Coinbase.candles_params name cs
       (Coinbase.window_end end_date granularity cs) granularity 300).
Proof.
  intros Hname Hlt. pose proof (granularity_map_pos _ _ Hname) as Hg.
  pose proof (window_end_advances end_date granularity cs Hg Hlt) as Hadv.
  unfold Trace.within_limits, Coinbase.candles_params. cbn [req_limit req_start req_end].
  assert (Hspan : Coinbase.window_end end_date granularity cs - cs <= 300 * granularity)
    by (unfold Coinbase.window_end, Coinbase.batch_seconds; lia).
  assert (Hend : (300 * granularity
                  <? Coinbase.window_end end_date granularity cs - cs) = false)
    by (apply Z.ltb_ge; exact Hspan).
  rewrite Hend. split; [reflexivity|]. split; lia.
Qed.

(** X4.  Every request that a run of the bulk fetch sends, however the run
    ends, asks for a window that is not empty, ends by [end_date] and holds
    at most 300 candles, with a limit of 300. *)
Theorem every_request_within_limits
        (src : source) (start_date end_date granularity : Z) (fuel : nat)
        (d0 : filesystem) :
  Forall (Trace.within_limits end_date granularity)
    (requests_of
       (history (snd (Coinbase.fetch_complete_historical_data
                        src start_date end_date granularity fuel (boot d0))))).
Proof.
  destruct (fetch_run src start_date end_date granularity
              (fun _ es => Forall (Trace.within_limits end_date granularity)
                                  (requests_of es)))
    with (w := boot d0) (fuel := fuel)
    as [(Hsnd & _)|(ls & es & fin & Hsnd & HI & Hfin & _)].
  - intros ls es w df es_r HI Hlt _ _ Hshape.
    rewrite requests_of_app, requests_of_iteration_events.
    apply Forall_app. split; [|exact HI].
    apply Forall_forall. intros r Hr.
    destruct (requests_of_retry_shape _ _ _ _ _ Hshape Hr) as (name & Hname & ->).
    now apply window_request_within_limits.
  - intros _. constructor.
  - intros f df _ _. constructor.
  - rewrite Hsnd. constructor.
  - rewrite Hsnd, history_step_of. cbn [history boot log rev app].
    rewrite requests_of_rev. apply Forall_rev.
    rewrite requests_of_app, requests_of_files by exact Hfin. exact HI.
Qed.



Lemma windows_needed_done (end_date granularity cs : Z) :
  0 < granularity -> end_date <= cs ->
  Coinbase.windows_needed end_date granularity cs = 0%nat.
Proof.
  unfold Coinbase.windows_needed, Coinbase.batch_seconds. intros Hg Hle.
  assert ((end_date - cs + 300 * granularity - 1) / (300 * granularity) <= 0);
    [|lia].
  apply Z.lt_succ_r, Z.div_lt_upper_bound; lia.
Qed.

(** X6.  A run without a checkpoint whose loop ends has visited every window
    of the range once: each window either added a frame to the accumulator
    or is in [failed_requests], none is skipped, and the failed windows are
    windows of the range. *)
Theorem every_window_is_accounted_for
        (src : source) (start_date end_date granularity : Z) (fuel : nat)
        (w w' : world) (ls : Coinbase.loop_state) :
  0 < granularity ->
  disk w main_checkpoint = None ->
  Coinbase.fetch_loop src start_date end_date granularity fuel w = (Ok ls, w') ->
  (length (Coinbase.all_data ls) + length (Coinbase.failed_requests ls))%nat
  = Coinbase.windows_needed end_date granularity start_date
  /\ Coinbase.request_count ls
     = Z.of_nat (Coinbase.windows_needed end_date granularity start_date)
  /\ Forall (Trace.is_window start_date end_date granularity)
            (Coinbase.failed_requests ls).
Proof.
  intros Hg Hck Hloop.
  rewrite fetch_loop_fresh in Hloop by (assumption || lia).
  destruct (main_loop_run src start_date end_date granularity
              (fun ls _ =>
                 start_date <= Coinbase.current_start ls
                 /\ Z.of_nat (length (Coinbase.all_data ls)
                              + length (Coinbase.failed_requests ls))
                    = Coinbase.request_count ls
                 /\ (length (Coinbase.all_data ls)
                     + length (Coinbase.failed_requests ls)
                     + Coinbase.windows_needed end_date granularity
                         (Coinbase.current_start ls))%nat
                    = Coinbase.windows_needed end_date granularity start_date
                 /\ Forall (Trace.is_window start_date end_date granularity)
                           (Coinbase.failed_requests ls)))
    with (fuel := fuel) (ls := Scenario.fresh start_date) (w := w) (es0 := @nil event)
    as (ls' & es & _ & (Hcs & Hcount & Hleft & Hwin) & Hfst).
  - intros ls0 es0 w0 df es_r (Hcs & Hcount & Hleft & Hwin) Hlt _ _ _.
    pose proof (window_end_advances end_date granularity _ Hg Hlt) as Hadv.
    pose proof (windows_needed_next end_date granularity _ Hg Hlt) as Hnext.
    cbn [Coinbase.advance Coinbase.current_start Coinbase.all_data
         Coinbase.failed_requests Coinbase.request_count].
    rewrite !length_app.
    split; [lia|].
    destruct df as [d|]; cbn [length]; (split; [lia|]); (split; [lia|]).
    + now rewrite app_nil_r.
    + apply Forall_app. split; [exact Hwin|].
      constructor; [|constructor].
      unfold Trace.is_window. cbn [fst snd].
      unfold Coinbase.window_end, Coinbase.batch_seconds in *. lia.
  - cbn. repeat split; try lia. constructor.
  - unfold Scenario.fresh in Hfst. rewrite Hloop in Hfst.
    destruct (Hfst ls eq_refl) as [-> Hend].
    rewrite windows_needed_done in Hleft by assumption.
    split; [lia|]. split; [lia | exact Hwin].
Qed.

Lemma every_window_is_accounted_for_witness :
  let loop :=
    Coinbase.fetch_loop (Scenario.down_after 1 (Scenario.series_source Scenario.daily))
                        Scenario.jan_2020 Scenario.jan_2021 86400 10 (boot no_files) in
  match fst loop with
  | Ok ls =>
      (length (Coinbase.all_data ls) + length (Coinbase.failed_requests ls))%nat
      = Coinbase.windows_needed Scenario.jan_2021 86400 Scenario.jan_2020
      /\ length (Coinbase.all_data ls) = 1%nat
      /\ Coinbase.failed_requests ls = [(1603756800, 1609459200)]
  | _ => False
  end.
Proof.
  cbv zeta.
  assert (Hg : 0 < 86400) by lia.
  destruct (Coinbase.fetch_loop
              (Scenario.down_after 1 (Scenario.series_source Scenario.daily))
              Scenario.jan_2020 Scenario.jan_2021 86400 10 (boot no_files))
    as [r w'] eqn:Hloop.
  assert (Hr : fst (Coinbase.fetch_loop
                      (Scenario.down_after 1 (Scenario.series_source Scenario.daily))
                      Scenario.jan_2020 Scenario.jan_2021 86400 10 (boot no_files))
               = r) by now rewrite Hloop.
  vm_compute in Hr. subst r. cbn [fst].
  split; [|split; reflexivity].
  exact (proj1 (every_window_is_accounted_for
                  (Scenario.down_after 1 (Scenario.series_source Scenario.daily))
                  Scenario.jan_2020 Scenario.jan_2021 86400 10 (boot no_files) w' _
                  Hg eq_refl Hloop)).
Defined.

(** ** Where the returned candles come from *)





(** ** What a checkpoint save leaves on the disk *)

Lemma filter_split_perm {A} (p q : A -> bool) (l : list A) :
  (forall x, p x = true -> q x = false) ->
  Permutation (filter p l ++ filter q l) (filter (fun x => p x || q x) l).
Proof.
  intros Hpq. induction l as [|x l IH]; simpl; [constructor|].
  destruct (p x) eqn:Ep; simpl.
  - rewrite (Hpq x Ep). now constructor.
  - destruct (q x); [|exact IH].
    symmetry. apply Permutation_cons_app. now symmetry.
Qed.

(** Grouping the rows of a frame by the distinct values of a column loses
    and repeats nothing. *)
Lemma group_by_perm {A} (f : A -> Z) (l : list A) (ks : list Z) :
  NoDup ks ->
  Permutation (flat_map (fun k => filter (fun c => f c =? k) l) ks)
              (filter (fun c => existsb (Z.eqb (f c)) ks) l).
Proof.
  induction 1 as [|k ks Hk Hnd IH]; simpl.
  - induction l; simpl; auto.
  - rewrite IH.
    rewrite (filter_split_perm (fun c => f c =? k)
                               (fun c => existsb (Z.eqb (f c)) ks)); [reflexivity|].
    intros x Hx. apply Z.eqb_eq in Hx. subst k.
    destruct (existsb (Z.eqb (f x)) ks) eqn:E; [|reflexivity].
    apply existsb_exists in E as (y & Hy & Hxy). apply Z.eqb_eq in Hxy.
    subst y. contradiction.
Qed.

Lemma unique_NoDup (l : list Z) : NoDup (Frame.unique l).
Proof.
  unfold Frame.unique.
  pose proof (drop_duplicates_NoDup (fun x : Z => x) l) as H.
  now rewrite map_id in H.
Qed.

Lemma unique_In (l : list Z) (x : Z) : In x (Frame.unique l) <-> In x l.
Proof.
  unfold Frame.unique. split; [apply drop_duplicates_incl|].
  intros H. destruct (drop_duplicates_covers (fun x : Z => x) l x H) as (y & Hy & ->).
  exact Hy.
Qed.

Lemma rows_by_year_perm (df : DataFrame) :
  Permutation
    (flat_map (fun year => Coinbase.rows_of_year year df) (Coinbase.years_of df)) df.
Proof.
  unfold Coinbase.rows_of_year, Coinbase.years_of.
  rewrite (group_by_perm (fun c => Calendar.year_of (timestamp c)))
    by apply unique_NoDup.
  replace (filter _ df) with df; [reflexivity|].
  symmetry. apply forallb_filter_id. apply forallb_forall. intros c Hc.
  apply existsb_exists. exists (Calendar.year_of (timestamp c)).
  split; [|apply Z.eqb_refl].
  apply unique_In, in_map_iff. now exists c.
Qed.

(** The disk after the yearly backups were written, oldest file first. *)
Lemma replay_backups (temp_df : DataFrame) (years : list Z) (d : filesystem) (y : Z) :
  NoDup years -> In y years ->
  replay (flat_map (fun year =>
                      [OpenW (year_file year);
                       Append (year_file year)
                         (CsvHeader :: map CsvRow (Coinbase.rows_of_year year temp_df))])
                   years) d (year_file y)
  = Some (Scenario.csv (Coinbase.rows_of_year y temp_df)).
Proof.
  intros Hnd. revert d. induction Hnd as [|y0 years Hy0 Hnd IH]; intros d Hin; [destruct Hin|].
  cbn [flat_map app]. cbn [replay fold_left]. fold (replay).
  change (fold_left (fun d e => apply_event e d) ?es ?d0) with (replay es d0).
  destruct (Z.eq_dec y0 y) as [->|Hne].
  - rewrite replay_untouched.
    + cbn [apply_event]. rewrite fs_set_same, fs_set_same. reflexivity.
    + apply Forall_forall. intros e He.
      apply in_flat_map in He as (y1 & Hy1 & [<-|[<-|[]]]); simpl;
        intros [= ->]; contradiction.
  - apply IH. destruct Hin as [->|Hin]; [contradiction | exact Hin].
Qed.

Lemma rev_flat_map_pairs {A B} (f g : A -> B) (l : list A) :
  rev (flat_map (fun x => [f x; g x]) l) = flat_map (fun x => [g x; f x]) (rev l).
Proof.
  induction l as [|x l IH]; [reflexivity|].
  simpl. rewrite IH, flat_map_app. simpl. now rewrite <- app_assoc.
Qed.

(** The disk after a checkpoint save. *)
Lemma save_checkpoint_disk (frames : list DataFrame) (w : world) :
  let temp_df := Coinbase.combine frames in
  let d' := disk (step_of (Coinbase.checkpoint_events frames) w) in
  d' main_checkpoint = Some (Scenario.csv temp_df)
  /\ forall y, In y (Coinbase.years_of temp_df) ->
               d' (year_file y) = Some (Scenario.csv (Coinbase.rows_of_year y temp_df)).
Proof.
  cbv zeta. cbn [disk step_of]. unfold Coinbase.checkpoint_events.
  set (temp_df := Coinbase.combine frames).
  rewrite rev_app_distr.
  change (rev [Append main_checkpoint ?rows; OpenW main_checkpoint])
    with [OpenW main_checkpoint; Append main_checkpoint rows].
  rewrite replay_app.
  unfold Coinbase.backup_events. rewrite rev_flat_map_pairs, rev_involutive.
  split.
  - rewrite replay_untouched.
    + cbn [replay fold_left apply_event]. rewrite fs_set_same, fs_set_same. reflexivity.
    + apply Forall_forall. intros e He.
      apply in_flat_map in He as (y1 & Hy1 & [<-|[<-|[]]]); discriminate.
  - intros y Hy. apply replay_backups; [apply unique_NoDup | exact Hy].
Qed.


(** X9.  The yearly backups of a checkpoint save partition the checkpoint:
    each year that occurs has its file, the file of a year holds the rows of
    that year, no year occurs twice, and the files together hold every row
    of the combined accumulator once. *)
Theorem yearly_backups_partition (frames : list DataFrame) (w : world) :
  let temp_df := Coinbase.combine frames in
  let w' := snd (Coinbase.save_checkpoint frames w) in
  (forall y c,
      In y (Coinbase.years_of temp_df) ->
      (In c (Coinbase.rows_of_year y temp_df)
       <-> In c temp_df /\ Calendar.year_of (timestamp c) = y)
      /\ disk w' (year_file y) = Some (Scenario.csv (Coinbase.rows_of_year y temp_df)))
  /\ (forall c, In c temp_df ->
                In (Calendar.year_of (timestamp c)) (Coinbase.years_of temp_df))
  /\ NoDup (Coinbase.years_of temp_df)
  /\ Permutation
       (flat_map (fun y => Coinbase.rows_of_year y temp_df) (Coinbase.years_of temp_df))
       temp_df.
Proof.
  cbv zeta. rewrite save_checkpoint_step. cbn [snd].
  destruct (save_checkpoint_disk frames w) as [_ Hyears].
  split; [|split; [|split]].
  - intros y c Hy. split; [|now apply Hyears].
    unfold Coinbase.rows_of_year. rewrite filter_In, Z.eqb_eq. tauto.
  - intros c Hc. apply unique_In, in_map_iff. now exists c.
  - apply unique_NoDup.
  - apply rows_by_year_perm.
Qed.

(** ** The dataset files *)

Lemma min_timestamp_spec (df : DataFrame) (m : Z) :
  Dataset.min_timestamp df = Some m ->
  (exists x, In x df /\ timestamp x = m) /\ (forall x, In x df -> m <= timestamp x).
Proof.
  destruct df as [|c rest]; simpl; [discriminate|].
  intros [= <-].
  revert c. induction rest as [|d rest IH]; intros c; simpl.
  - split; [exists c; auto|]. intros x [->|[]]. lia.
  - assert (Hstep : exists c', (c' = c \/ c' = d)
                               /\ timestamp c' = Z.min (timestamp c) (timestamp d)).
    { destruct (Z.min_spec (timestamp c) (timestamp d)) as [[_ E]|[_ E]];
        [exists c | exists d]; auto. }
    destruct Hstep as (c' & Hc' & E). rewrite <- E.
    destruct (IH c') as [(x & Hx & Hk) Hle]. split.
    + exists x. split; [|exact Hk]. simpl in *.
      destruct Hx as [<-|Hx]; [destruct Hc' as [->| ->]|]; auto.
    + intros z Hz.
      assert (timestamp c' <= timestamp c /\ timestamp c' <= timestamp d)
        as [L1 L2] by lia.
      pose proof (Hle c' (or_introl eq_refl)) as L3.
      destruct Hz as [->|[->|Hz]]; try lia.
      apply Hle. now right.
Qed.

(** On a frame with rows the summary divides by zero exactly when the first
    and the last timestamp are equal. *)
Lemma save_complete_dataset_raises (c : candle) (rest : DataFrame) :
  snd (Dataset.save_complete_dataset (Some (c :: rest))) = Raise ZeroDivisionError
  <-> forall x, In x (c :: rest) -> timestamp x = timestamp c.
Proof.
  unfold Dataset.save_complete_dataset. cbn [snd].
  destruct (Frame.max_key timestamp (c :: rest)) as [hi|] eqn:Hhi; [|discriminate].
  destruct (Dataset.min_timestamp (c :: rest)) as [lo|] eqn:Hlo; [|discriminate].
  destruct (max_key_spec timestamp _ _ Hhi) as [_ Hmax].
  destruct (min_timestamp_spec _ _ Hlo) as [_ Hmin].
  pose proof (Hmax c (or_introl eq_refl)). pose proof (Hmin c (or_introl eq_refl)).
  destruct (hi - lo =? 0) eqn:E.
  - apply Z.eqb_eq in E. split; [|reflexivity].
    intros _ x Hx. specialize (Hmax x Hx). specialize (Hmin x Hx). lia.
  - apply Z.eqb_neq in E. split; [discriminate|].
    intros Hall. exfalso. apply E.
    destruct (max_key_spec timestamp _ _ Hhi) as [(a & Ha & <-) _].
    destruct (min_timestamp_spec _ _ Hlo) as [(b & Hb & <-) _].
    rewrite (Hall a Ha), (Hall b Hb). lia.
Qed.

Lemma ascending_same_timestamp (df : DataFrame) (c : candle) :
  Frame.ascending timestamp (c :: df) ->
  (forall x, In x (c :: df) -> timestamp x = timestamp c) ->
  df = [].
Proof.
  unfold Frame.ascending. intros Hasc Hall.
  destruct df as [|d df]; [reflexivity|]. exfalso.
  inversion Hasc as [|? ? _ Hlt]; subst.
  inversion Hlt as [|? ? Hd _]; subst.
  specialize (Hall d (or_intror (or_introl eq_refl))). lia.
Qed.

(** X10.  The main block saves what the bulk fetch returned.  The save
    raises [ZeroDivisionError], after its files are written, exactly when the
    frame holds a single candle; an empty frame writes no file. *)
Theorem single_candle_dataset_raises
        (src : source) (start_date end_date granularity : Z) (fuel : nat)
        (w : world) (out : list (Dataset.out_path * DataFrame) * result unit) :
  Dataset.main src start_date end_date granularity fuel w = Some out ->
  exists df,
    fst (Coinbase.fetch_complete_historical_data
           src start_date end_date granularity fuel w) = Ok (Some df)
    /\ fst out = match df with [] => [] | _ => Dataset.dataset_files df end
    /\ (snd out = Raise ZeroDivisionError <-> length df = 1%nat).
Proof.
  unfold Dataset.main.
  destruct (fst (Coinbase.fetch_complete_historical_data
                   src start_date end_date granularity fuel w))
    as [[df|]|e|] eqn:Hok; try discriminate.
  intros [= <-]. exists df. split; [reflexivity|].
  apply fetch_returns_inv in Hok as (ls & w1 & _ & _ & _ & Hdf).
  assert (Hasc : Frame.ascending timestamp df)
    by (subst df; apply sort_drop_duplicates_ascending).
  clear Hdf. destruct df as [|c rest].
  - split; [reflexivity|]. simpl. split; discriminate.
  - split; [reflexivity|].
    pose proof (save_complete_dataset_raises c rest) as Hraise.
    split.
    + intros H. pose proof (proj1 Hraise H) as Hall.
      now rewrite (ascending_same_timestamp rest c Hasc Hall).
    + intros Hlen. apply (proj2 Hraise). intros x Hx. destruct rest; [|discriminate].
      destruct Hx as [<-|[]]. reflexivity.
Qed.

Lemma single_candle_dataset_raises_witness :
  exists df,
    fst (Coinbase.fetch_complete_historical_data
           Scenario.stuck_source Scenario.jan_2020 Scenario.jan_2021 86400 10
           (boot no_files)) = Ok (Some df)
    /\ fst (Dataset.save_complete_dataset (Some [Scenario.flat Scenario.jan_2020]))
       = match df with [] => [] | _ => Dataset.dataset_files df end
    /\ (snd (Dataset.save_complete_dataset (Some [Scenario.flat Scenario.jan_2020]))
        = Raise ZeroDivisionError <-> length df = 1%nat).
Proof.
  apply (single_candle_dataset_raises
           Scenario.stuck_source Scenario.jan_2020 Scenario.jan_2021 86400 10
           (boot no_files)).
  vm_compute. reflexivity.
Defined.

Lemma sorted_years_ascending (rows : DataFrame) :
  StronglySorted Z.lt (Dataset.sorted_years rows).
Proof.
  unfold Dataset.sorted_years, Coinbase.years_of, Frame.unique.
  pose proof (sort_drop_duplicates_ascending (fun y : Z => y)
                (map (fun c => Calendar.year_of (timestamp c)) rows)) as H.
  unfold Frame.ascending in H. now rewrite map_id in H.
Qed.

Lemma sorted_years_perm (rows : DataFrame) :
  Permutation (Dataset.sorted_years rows) (Coinbase.years_of rows).
Proof. apply sort_values_perm. Qed.

(** X11.  The files of a dataset: the complete file holds the frame, there is
    one file for each year in which the frame has a row, in ascending order
    of the years, the file of a year holds the rows of that year, and the
    yearly files together hold every row once. *)
Theorem dataset_files_partition (rows : DataFrame) :
  rows <> [] ->
  let files := fst (Dataset.save_complete_dataset (Some rows)) in
  let years := Dataset.sorted_years rows in
  files = (Dataset.complete_file, rows)
          :: map (fun y => (Dataset.yearly_file y, Coinbase.rows_of_year y rows)) years
  /\ StronglySorted Z.lt years
  /\ (forall y, In y years <-> exists c, In c rows /\ Calendar.year_of (timestamp c) = y)
  /\ (forall y c, In c (Coinbase.rows_of_year y rows)
                  <-> In c rows /\ Calendar.year_of (timestamp c) = y)
  /\ Permutation (flat_map snd (tl files)) rows.
Proof.
  intros Hne. cbv zeta.
  destruct rows as [|c rest] eqn:Erows; [congruence|]. rewrite <- Erows in *.
  assert (Hfiles : fst (Dataset.save_complete_dataset (Some rows))
                   = Dataset.dataset_files rows) by (rewrite Erows; reflexivity).
  rewrite Hfiles. unfold Dataset.dataset_files.
  split; [reflexivity|]. split; [apply sorted_years_ascending|]. split; [|split].
  - intros y. split.
    + intros Hy. apply (Permutation_in _ (sorted_years_perm rows)) in Hy.
      apply unique_In, in_map_iff in Hy as (c0 & Hc & Hin). now exists c0.
    + intros (c0 & Hin & Hc).
      apply (Permutation_in _ (Permutation_sym (sorted_years_perm rows))).
      apply unique_In, in_map_iff. now exists c0.
  - intros y c0. unfold Coinbase.rows_of_year. rewrite filter_In, Z.eqb_eq. tauto.
  - cbn [tl]. rewrite flat_map_concat_map, map_map. cbn [snd].
    rewrite <- flat_map_concat_map.
    rewrite (Permutation_flat_map _ (sorted_years_perm rows)).
    apply rows_by_year_perm.
Qed.

Lemma dataset_files_partition_witness :
  let rows := Scenario.grid (Calendar.strptime 2019 12 30) 86400 4 in
  rows <> []
  /\ Dataset.sorted_years rows = [2019; 2020]
  /\ Permutation
       (flat_map snd (tl (fst (Dataset.save_complete_dataset (Some rows))))) rows.
Proof.
  cbv zeta.
  assert (Hne : Scenario.grid (Calendar.strptime 2019 12 30) 86400 4 <> [])
    by discriminate.
  split; [exact Hne|]. split; [vm_compute; reflexivity|].
  apply (dataset_files_partition _ Hne).
Defined.

(** ** The chunked loops *)

Lemma chunks_needed_done (end_date cur : Z) :
  end_date <= cur -> Futures.chunks_needed end_date cur = 0%nat.
Proof.
  unfold Futures.chunks_needed, Futures.twenty_days. intros Hle.
  assert ((end_date - cur + 1728000000 - 1) / 1728000000 <= 0); [|lia].
  apply Z.lt_succ_r, Z.div_lt_upper_bound; lia.
Qed.

Lemma chunks_needed_next (end_date cur : Z) :
  cur < end_date ->
  S (Futures.chunks_needed end_date (Z.min (cur + Futures.twenty_days) end_date))
  = Futures.chunks_needed end_date cur.
Proof.
  unfold Futures.chunks_needed, Futures.twenty_days. intros Hlt.
  set (B := 1728000000). assert (HB : 0 < B) by (subst B; lia).
  destruct (Z_le_gt_dec (cur + B) end_date) as [Hle|Hgt].
  - rewrite Z.min_l by lia.
    replace (end_date - cur + B - 1) with (end_date - (cur + B) + B - 1 + 1 * B) by lia.
    rewrite Z.div_add by lia.
    assert (0 <= (end_date - (cur + B) + B - 1) / B) by (apply Z.div_pos; lia).
    lia.
  - rewrite Z.min_r by lia.
    replace (end_date - end_date + B - 1) with (B - 1) by lia.
    rewrite Z.div_small by lia.
    assert ((end_date - cur + B - 1) / B = 1); [|lia].
    symmetry. apply Z.div_unique with (r := end_date - cur - 1); lia.
Qed.

Lemma gets_app (es1 es2 : list Futures.cevent) :
  Futures.gets (es1 ++ es2) = Futures.gets es1 ++ Futures.gets es2.
Proof. unfold Futures.gets. apply flat_map_app. Qed.

Section Chunks.

Variable row : Type.
Variable src : Futures.chunk_source row.
Variable end_date : Z.

Local Abbreviation chunk_of := (Futures.chunk_of row end_date).
Local Abbreviation next_chunk := (Futures.next_chunk row end_date).
Local Abbreviation ls_body := (Futures.ls_body row src end_date).
Local Abbreviation ls_loop := (Futures.ls_loop row src end_date).
Local Abbreviation oi_body := (Futures.oi_body row src end_date).
Local Abbreviation oi_loop := (Futures.oi_loop row src end_date).

(** Whatever the answer, an iteration of the loop of the long/short ratio
    moves to the next chunk. *)
Lemma ls_body_next (s : Futures.cstate row) :
  exists new_rows, ls_body s = next_chunk s new_rows.
Proof.
  unfold Futures.ls_body.
  destruct (src _ _) as [|code [data|]]; eauto.
  destruct (code =? 200); eauto.
Qed.

Lemma tiles_chunk (s : Futures.cstate row) (rs : list Futures.chunk_request) :
  Futures.current_date row s < end_date ->
  Futures.tiles (Futures.c_end (chunk_of s)) end_date rs ->
  Futures.tiles (Futures.current_date row s) end_date (chunk_of s :: rs).
Proof.
  intros Hlt Hrest. cbn [Futures.tiles].
  cbn [Futures.chunk_of Futures.c_start Futures.c_end Futures.c_limit] in *.
  unfold Futures.twenty_days in *. repeat split; try lia. exact Hrest.
Qed.

Lemma ls_loop_tiles (fuel : nat) (s : Futures.cstate row) :
  (Futures.chunks_needed end_date (Futures.current_date row s) <= fuel)%nat ->
  exists s' new,
    ls_loop fuel s = Some s'
    /\ Futures.c_trace row s' = new ++ Futures.c_trace row s
    /\ Futures.tiles (Futures.current_date row s) end_date (Futures.gets (rev new))
    /\ length (Futures.gets (rev new))
       = Futures.chunks_needed end_date (Futures.current_date row s)
    /\ Futures.c_sent row s'
       = (Futures.chunks_needed end_date (Futures.current_date row s)
          + Futures.c_sent row s)%nat.
Proof.
  revert s. induction fuel as [|fuel IH]; intros s Hfuel.
  - assert (Hdone : end_date <= Futures.current_date row s).
    { destruct (Z_lt_le_dec (Futures.current_date row s) end_date) as [Hlt|]; [|assumption].
      pose proof (chunks_needed_next end_date _ Hlt). lia. }
    exists s, []. simpl. apply Z.ltb_ge in Hdone as Hb. rewrite Hb.
    rewrite chunks_needed_done by exact Hdone. auto.
  - destruct (Z_lt_le_dec (Futures.current_date row s) end_date) as [Hlt|Hdone].
    + simpl. apply Z.ltb_lt in Hlt as Hb. rewrite Hb.
      destruct (ls_body_next s) as (new_rows & ->).
      pose proof (chunks_needed_next end_date _ Hlt) as Hnext.
      destruct (IH (next_chunk s new_rows)) as (s' & new & Hrun & Htrace & Htiles & Hlen & Hsent).
      { cbn [Futures.next_chunk Futures.current_date Futures.chunk_of Futures.c_end]. lia. }
      cbn [Futures.next_chunk Futures.current_date Futures.c_trace Futures.c_sent
           Futures.chunk_of Futures.c_end] in Htrace, Htiles, Hlen, Hsent.
      exists s', (new ++ [Futures.CWait 1000; Futures.CGet (chunk_of s)]).
      split; [exact Hrun|]. split; [now rewrite Htrace, <- app_assoc|].
      rewrite rev_app_distr. cbn [rev app Futures.gets flat_map].
      fold (Futures.gets (rev new)).
      split; [now apply tiles_chunk|]. split; [simpl; lia | lia].
    + exists s, []. simpl. apply Z.ltb_ge in Hdone as Hb. rewrite Hb.
      rewrite chunks_needed_done by exact Hdone. auto.
Qed.




End Chunks.

(** X12.  The loops of [get_hourly_long_short_ratio] and
    [get_hourly_taker_volume] never stop early and never repeat a chunk:
    whatever the source answers, they end after one request per chunk, and
    the requests cut the range into consecutive chunks of at most twenty
    days (480 hourly points, under the limit of 500). *)
Theorem ratio_loop_requests_tile_the_range
        (row : Type) (src : Futures.chunk_source row) (start_date end_date : Z)
        (fuel : nat) :
  (Futures.chunks_needed end_date start_date <= fuel)%nat ->
  exists s,
    Futures.ls_loop row src end_date fuel (Futures.cfresh row start_date) = Some s
    /\ Futures.tiles start_date end_date (Futures.gets (rev (Futures.c_trace row s)))
    /\ length (Futures.gets (rev (Futures.c_trace row s)))
       = Futures.chunks_needed end_date start_date
    /\ Futures.c_sent row s = Futures.chunks_needed end_date start_date.
Proof.
  intros Hfuel.
  destruct (ls_loop_tiles row src end_date fuel (Futures.cfresh row start_date) Hfuel)
    as (s & new & Hrun & Htrace & Htiles & Hlen & Hsent).
  cbn [Futures.cfresh Futures.c_trace Futures.current_date Futures.c_sent]
    in Htrace, Htiles, Hlen, Hsent.
  rewrite app_nil_r in Htrace. subst new.
  exists s. split; [exact Hrun|]. split; [exact Htiles|]. split; [exact Hlen | lia].
Qed.

Lemma ratio_loop_requests_tile_the_range_witness :
  (Futures.chunks_needed Futures.end_date Futures.start_date <= 102)%nat
  /\ exists s,
      Futures.ls_loop Futures.ls_row (fun _ _ => Futures.CFailed Futures.ls_row)
                      Futures.end_date 102 (Futures.cfresh Futures.ls_row Futures.start_date)
      = Some s
      /\ Futures.tiles Futures.start_date Futures.end_date
                       (Futures.gets (rev (Futures.c_trace Futures.ls_row s)))
      /\ length (Futures.gets (rev (Futures.c_trace Futures.ls_row s)))
         = Futures.chunks_needed Futures.end_date Futures.start_date
      /\ Futures.c_sent Futures.ls_row s
         = Futures.chunks_needed Futures.end_date Futures.start_date.
Proof.
  assert (Hfuel : (Futures.chunks_needed Futures.end_date Futures.start_date <= 102)%nat)
    by (apply Nat.leb_le; vm_compute; reflexivity).
  split; [exact Hfuel|].
  exact (ratio_loop_requests_tile_the_range
           Futures.ls_row (fun _ _ => Futures.CFailed Futures.ls_row)
           Futures.start_date Futures.end_date 102 Hfuel).
Defined.



(** ** The loop of [get_hourly_klines] *)



Section KlinesLoop.

Variable src : Binance.kline_source.
Variable end_date : Z.



Lemma klines_loop_stale (fuel : nat) (s : Binance.kstate) :
  Hourly.stale src ->
  Binance.current_start s < end_date ->
  Binance.klines_loop src end_date fuel s = None.
Proof.
  intros Hstale. revert s.
  induction fuel as [|fuel IH]; intros s Hlt; simpl;
    apply Z.ltb_lt in Hlt as Hb; rewrite Hb; [reflexivity|].
  unfold Binance.klines_body.
  destruct (Hstale (Binance.sent s)
                   {| Binance.startTime := Binance.current_start s;
                      Binance.limit := 1000 |})
    as (data & rows & -> & Hrows & Hne & Hlast).
  cbn [Z.eqb Pos.eqb]. change (200 =? 200) with true. cbv iota.
  destruct data as [|d data]; [simpl in Hrows; injection Hrows as <-; congruence|].
  rewrite Hrows. apply IH. cbn [Binance.current_start Binance.startTime] in *. lia.
Qed.

End KlinesLoop.



(** X15.  Nothing in [get_hourly_klines] guards against a source that does
    not move on: when every answer is a page whose last kline is an hour or
    more older than the ['startTime'] asked for, [current_start] never grows
    and the loop never ends. *)
Theorem klines_loop_never_ends_with_stale_source
        (src : Binance.kline_source) (start_date end_date : Z) (fuel : nat) :
  Hourly.stale src ->
  start_date < end_date ->
  Binance.get_hourly_klines src end_date fuel start_date = None.
Proof.
  intros Hstale Hlt. unfold Binance.get_hourly_klines.
  now rewrite klines_loop_stale.
Qed.

Lemma klines_loop_never_ends_with_stale_source_witness :
  Hourly.stale Hourly.lagging
  /\ 0 < Binance.one_hour
  /\ Binance.get_hourly_klines Hourly.lagging Binance.one_hour 50 0 = None.
Proof.
  assert (Hstale : Hourly.stale Hourly.lagging).
  { intros i r. eexists. eexists. split; [reflexivity|].
    split; [reflexivity|]. split; [discriminate|]. simpl. lia. }
  assert (Hlt : 0 < Binance.one_hour) by reflexivity.
  split; [exact Hstale|]. split; [exact Hlt|].
  exact (klines_loop_never_ends_with_stale_source
           Hourly.lagging 0 Binance.one_hour 50 Hstale Hlt).
Defined.

(** ** The frames of the chunked loops *)

(** X16.  The frame that [get_hourly_open_interest],
    [get_hourly_long_short_ratio] and [get_hourly_taker_volume] return is
    ascending by timestamp without equal timestamps, and for every timestamp
    it holds the row that was appended first. *)
Theorem chunked_frame_keeps_first_rows
        (row : Type) (key : row -> Z) (s : Futures.cstate row) (df : list row) :
  Futures.result_frame row key s = Some df ->
  Frame.ascending key df
  /\ forall r,
      In r df <-> find (fun d => key d =? key r) (Futures.rows row s) = Some r.
Proof.
  unfold Futures.result_frame.
  remember (Futures.rows row s) as all eqn:Hall.
  destruct all as [|r0 rows]; [discriminate|]. rewrite Hall.
  intros [= <-]. split; [apply sort_drop_duplicates_ascending|].
  intros r. rewrite sort_values_In. apply drop_duplicates_first.
Qed.

Lemma chunked_frame_keeps_first_rows_witness :
  let s :=
    {| Futures.rows :=
         [Futures.mkOiRow 7200000 1 1; Futures.mkOiRow 3600000 2 2;
          Futures.mkOiRow 7200000 3 3];
       Futures.current_date := Futures.end_date;
       Futures.c_sent := 1%nat;
       Futures.c_trace := [] |} in
  let df := [Futures.mkOiRow 3600000 2 2; Futures.mkOiRow 7200000 1 1] in
  Futures.result_frame Futures.oi_row Futures.oi_timestamp s = Some df
  /\ Frame.ascending Futures.oi_timestamp df
  /\ forall r,
      In r df <->
      find (fun d => Futures.oi_timestamp d =? Futures.oi_timestamp r)
           (Futures.rows Futures.oi_row s) = Some r.
Proof.
  cbv zeta. split; [reflexivity|].
  exact (chunked_frame_keeps_first_rows
           Futures.oi_row Futures.oi_timestamp
           {| Futures.rows :=
                [Futures.mkOiRow 7200000 1 1; Futures.mkOiRow 3600000 2 2;
                 Futures.mkOiRow 7200000 3 3];
              Futures.current_date := Futures.end_date;
              Futures.c_sent := 1%nat;
              Futures.c_trace := [] |}
           [Futures.mkOiRow 3600000 2 2; Futures.mkOiRow 7200000 1 1]
           eq_refl).
Defined.
